(** * aiohttp-json-rpc: the Django authentication backend

    A shallow embedding of [aiohttp_json_rpc/auth/django.py]
    ([DjangoAuthBackend]) and the properties of its capability
    resolution: identity lookup from the session cookie, the
    authorization predicate over method metadata, the rebuild of a
    connection's method table, topics and subscriptions, the login
    procedure and the generic ORM methods.

    Python objects are modelled by records of the attributes the backend
    reads, exceptions by an explicit [result] type, dictionaries by
    [gmap] and sets by [gset].  Django itself (the session table, the
    user table, [authenticate], the model managers) is not part of the
    repository: it enters as an interface, [Django], whose operations
    may raise, and as a small table-backed instance used to run the
    code on concrete data. *)

From Stdlib Require Import String Ascii ZArith Bool.
From stdpp Require Import base option list gmap sets strings pretty.

Local Open Scope string_scope.

(** ** Exceptions and results *)

(** The exception classes the backend raises, catches or lets through.
    All of them derive from Python's [Exception], so an
    [except Exception] clause catches every one of them. *)
Inductive exn : Type :=
  | KeyError
  | TypeError
  | ValueError
  | AttributeError
  | IndexError
  | LookupError
  | RpcInvalidParamsError
  | Session_DoesNotExist
  | User_DoesNotExist
  | Model_DoesNotExist
  | FieldError
  | DatabaseError (msg : string).

Global Instance exn_eq_dec : EqDecision exn.
Proof. solve_decision. Defined.

Inductive result (A : Type) : Type :=
  | Ok (a : A)
  | Raise (e : exn).
Arguments Ok {A} a.
Arguments Raise {A} e.

Global Instance result_ret : MRet result := fun A a => Ok a.
Global Instance result_bind : MBind result := fun A B f r =>
  match r with
  | Ok a => f a
  | Raise e => Raise e
  end.

(** [try: r except e => h]: run [r]; an exception of class [e] is handled
    by [h], every other exception propagates. *)
Definition try_except {A} (r : result A) (e : exn) (h : result A) : result A :=
  match r with
  | Ok a => Ok a
  | Raise e' => if decide (e' = e) then h else Raise e'
  end.

(** [except Exception as e: raise RpcInvalidParamsError from e]. *)
Definition except_Exception_raise {A} (r : result A) (e : exn) : result A :=
  match r with
  | Ok a => Ok a
  | Raise _ => Raise e
  end.

Definition returns {A} (r : result A) : Prop := ∃ a, r = Ok a.

(** ** Python strings: [str.split] *)

Definition cons_head (c : ascii) (l : list string) : list string :=
  match l with
  | h :: t => String c h :: t
  | [] => [String c ""]
  end.

(** [split_from sep skip s]: the pieces of [s] between the occurrences
    of the non-empty separator [sep], scanning from the left; [skip]
    counts the characters of a separator just matched that are still to
    be passed over. *)
Fixpoint split_from (sep : string) (skip : nat) (s : string) : list string :=
  match s with
  | EmptyString => [""]
  | String c s' =>
      match skip with
      | S k => split_from sep k s'
      | O =>
          if String.prefix sep s
          then "" :: split_from sep (String.length sep - 1) s'
          else cons_head c (split_from sep 0 s')
      end
  end.

(** [s.split(sep)] for a non-empty [sep]. *)
Definition split (sep s : string) : list string := split_from sep 0 s.

(** Whether the character [a] occurs in [s]. *)
Fixpoint char_in (a : ascii) (s : string) : bool :=
  match s with
  | EmptyString => false
  | String c s' => Ascii.eqb c a || char_in a s'
  end.

(** [l[i]], raising [IndexError] out of range. *)
Definition getitem {A} (l : list A) (i : nat) : result A :=
  match l !! i with
  | Some x => Ok x
  | None => Raise IndexError
  end.

(** ** JSON values, as decoded from a request message *)

#[warnings="-register-all"]
Inductive Value : Type :=
  | VNone
  | VBool (b : bool)
  | VInt (z : Z)
  | VStr (s : string)
  | VList (l : list Value)
  | VDict (d : gmap string Value).

(** Python truthiness, as used by [params or {}]. *)
Definition truthy (v : Value) : bool :=
  match v with
  | VNone => false
  | VBool b => b
  | VInt z => negb (Z.eqb z 0)
  | VStr s => negb (String.eqb s "")
  | VList l => match l with [] => false | _ => true end
  | VDict d => negb (bool_decide (d = ∅))
  end.

(** [a or b]. *)
Definition py_or (a b : Value) : Value := if truthy a then a else b.

Global Instance Value_eq_dec : EqDecision Value.
Proof.
  refine (fix go (v1 v2 : Value) : Decision (v1 = v2) :=
    let _ : EqDecision Value := @go in
    match v1, v2 with
    | VNone, VNone => left _
    | VBool a, VBool b => cast_if (decide (a = b))
    | VInt a, VInt b => cast_if (decide (a = b))
    | VStr a, VStr b => cast_if (decide (a = b))
    | VList a, VList b => cast_if (decide (a = b))
    | VDict a, VDict b => cast_if (decide (a = b))
    | _, _ => right _
    end); congruence.
Defined.

(** ** Users *)

Inductive UserClass : Type := AnonymousUserClass | UserModelClass.

Global Instance UserClass_eq_dec : EqDecision UserClass.
Proof. solve_decision. Defined.

(** Between Django 1.x and 2.x [is_authenticated] changed from a method
    to a boolean attribute; the backend supports both. *)
Inductive auth_attr : Type :=
  | AuthAttr (b : bool)
  | AuthMethod (f : unit → bool).

Record User : Type := mkUser {
  user_class : UserClass;
  pk : option string;
  is_active : bool;
  is_authenticated : auth_attr;
  is_superuser : bool;
  has_perm : string → bool;
  get_all_permissions : list string
}.

(** [user.has_perms(perm_list)]: every permission of the list is held. *)
Definition has_perms (u : User) (perm_list : list string) : bool :=
  forallb (has_perm u) perm_list.

(** Django's [AnonymousUser()]. *)
Definition AnonymousUser : User :=
  {| user_class := AnonymousUserClass;
     pk := None;
     is_active := false;
     is_authenticated := AuthAttr false;
     is_superuser := false;
     has_perm := fun _ => false;
     get_all_permissions := [] |}.

(** [isinstance(user, AnonymousUser)]. *)
Definition isinstance_AnonymousUser (u : User) : bool :=
  bool_decide (user_class u = AnonymousUserClass).

(** ** RPC methods and their authorization metadata *)

(** A function object with the attributes the decorators hang on it.
    [login_required] records whether the attribute is present
    ([hasattr]); the other two are [None] when the attribute is absent. *)
Record Function : Type := mkFunction {
  function_name : string;
  login_required : bool;
  permissions_required : option (list string);
  tests : option (list (User → bool))
}.

(** What a registry slot or a method wrapper can hold: one of the
    backend's own bound methods, a decorated function, or [None]. *)
Inductive PyCallable : Type :=
  | self_login
  | self_handle_orm_call
  | Func (f : Function)
  | PyNone.

Record JsonRpcMethod : Type := mkJsonRpcMethod { method : PyCallable }.

Definition hasattr_login_required (m : PyCallable) : bool :=
  match m with
  | Func f => login_required f
  | _ => false
  end.

Definition getattr_permissions_required (m : PyCallable) : option (list string) :=
  match m with
  | Func f => permissions_required f
  | _ => None
  end.

Definition getattr_tests (m : PyCallable) : option (list (User → bool)) :=
  match m with
  | Func f => tests f
  | _ => None
  end.

(** ** The helpers of [DjangoAuthBackend._is_authorized] *)

Definition _user_is_authenticated (user : User) : bool :=
  match is_authenticated user with
  | AuthMethod f => f tt
  | AuthAttr b => b
  end.

(** The loop over [method.tests]: the first failing test denies. *)
Fixpoint run_tests (ts : list (User → bool)) (user : User) : bool :=
  match ts with
  | [] => true
  | test :: rest => if negb (test user) then false else run_tests rest user
  end.

(** ** Requests and the RPC registry *)

(** [request.rpc]: the registered methods and topics, in the iteration
    order of their dictionaries. *)
Record JsonRpc : Type := mkJsonRpc {
  rpc_methods : list (string * JsonRpcMethod);
  rpc_topics : list (string * PyCallable)
}.

(** The attributes of the HTTP request the backend reads and writes.
    [user], [methods] and [topics] are assigned unconditionally by
    [prepare_request] before anything reads them; [subscriptions] is
    tested with [hasattr], so its absence is modelled by [None]. *)
Record Request : Type := mkRequest {
  cookies : gmap string string;
  rpc : JsonRpc;
  user : User;
  methods : gmap string JsonRpcMethod;
  topics : gset string;
  subscriptions : option (gset string)
}.

(** A decoded JSON-RPC request: [request.http_request],
    [request.msg.data['method']] and [request.params]
    (that is [request.msg.data['params']]; the message decoder stores
    [None] there when the message carries no params). *)
Record JsonRpcRequest : Type := mkJsonRpcRequest {
  http_request : Request;
  msg_method : string;
  params : Value
}.

(** ** [DjangoAuthBackend._is_authorized] *)

Definition _is_authorized (request : Request) (m : PyCallable) : bool :=
  if hasattr_login_required m
     && (negb (is_active (user request))
         || negb (_user_is_authenticated (user request)))
  then false
  else
  (* permission check *)
  if match getattr_permissions_required m with
     | Some perms => negb (is_superuser (user request))
                     && negb (has_perms (user request) perms)
     | None => false
     end
  then false
  else
  (* user tests *)
  match getattr_tests m with
  | Some ts => if negb (is_superuser (user request))
               then run_tests ts (user request) else true
  | None => true
  end.

(** ** Django, as the backend sees it *)

(** A row of [django.contrib.sessions.models.Session]: [get_decoded]
    never raises, an undecodable payload decodes to the empty dict. *)
Record Session : Type := mkSession {
  session_key : string;
  get_decoded : gmap string string
}.

(** A model instance: its primary key and its field attributes. *)
Record ModelObject : Type := mkModelObject {
  obj_pk : Value;
  obj_attrs : gmap string Value
}.

(** A model class, named by its label ["app_label.model_name"]. *)
Definition Model : Type := string.

(** The values of [django.conf.settings] the backend reads. *)
Record Settings : Type := mkSettings {
  SESSION_COOKIE_NAME : string;
  SESSION_COOKIE_DOMAIN : option string;
  SESSION_COOKIE_SECURE : bool
}.

(** The operations of Django (and [str]) the backend calls, over a
    database state [DB].  Each is the whole call as the source writes
    it; those that can raise return a [result]. *)
Class Django (DB : Type) : Type := {
  (** [Session.objects.get(session_key=k)] *)
  Session_objects_get : DB → string → result Session;
  (** [User.objects.get(pk=uid)] *)
  User_objects_get : DB → option string → result User;
  (** [authenticate(username=u, password=p)]; [None] when rejected *)
  authenticate : DB → string → string → option User;
  (** [SessionStore()], [django_login(fake_request, user)] and
      [fake_request.session.save()]: the new session key and the
      database with the session stored *)
  django_login_save : DB → User → string * DB;
  (** [model.objects.filter] called with the keyword arguments
      [lookups], and evaluated *)
  objects_filter : DB → Model → gmap string Value → result (list ModelObject);
  (** [model.objects.filter] with [lookups], then [.delete()] *)
  objects_filter_delete : DB → Model → gmap string Value → result DB;
  (** [model.objects.create] with the keyword arguments [values] *)
  objects_create : DB → Model → gmap string Value → result (ModelObject * DB);
  (** [model.objects.get(pk=pk)] *)
  objects_get : DB → Model → Value → result ModelObject;
  (** [model_object.save()] *)
  object_save : DB → Model → ModelObject → result DB;
  (** [model_to_dict(obj)] *)
  model_to_dict : ModelObject → gmap string Value;
  (** [apps.get_model(label)] *)
  apps_get_model : DB → string → result Model;
  (** [str(v)] on a decoded JSON value; it never raises *)
  py_str : Value → string
}.

(** A cookie as passed to [ws.set_cookie]. *)
Record Cookie : Type := mkCookie {
  cookie_name : string;
  cookie_value : string;
  cookie_path : string;
  cookie_max_age : option Z;
  cookie_domain : option string;
  cookie_secure : option bool;
  cookie_expires : option string
}.

(** What a call can change besides the request: the database and the
    cookies set on the websocket response. *)
Record World (DB : Type) : Type := mkWorld {
  db : DB;
  ws_cookies : list Cookie
}.
Arguments mkWorld {DB} db ws_cookies.
Arguments db {DB} w.
Arguments ws_cookies {DB} w.

Record DjangoAuthBackend : Type := mkBackend {
  generic_orm_methods : bool;
  settings : Settings
}.

Section Backend.
Context {DB : Type} `{!Django DB}.
Variable self : DjangoAuthBackend.

(** ** [get_user] *)

Definition get_user (d : DB) (request : Request) : result User :=
  let session_key := default "" (cookies request !! "sessionid") in
  r ← (if negb (String.eqb session_key "")
       then
         try_except
           (session ← Session_objects_get d session_key;
            let uid := get_decoded session !! "_auth_user_id" in
            try_except
              (u ← User_objects_get d uid; Ok (Some u))
              User_DoesNotExist
              (Ok None))
           Session_DoesNotExist
           (Ok None)
       else Ok None);
  match r with
  | Some u => Ok u
  | None => Ok AnonymousUser
  end.

(** ** [prepare_request] *)

Definition orm_actions : list string := ["view"; "add"; "change"; "delete"].

(** [permission_name.split('.')[1].split('_')[0]]. *)
Definition action_segment (permission_name : string) : result string :=
  codename ← getitem (split "." permission_name) 1;
  getitem (split "_" codename) 0.

(** The loop over [request.user.get_all_permissions()]. *)
Fixpoint generic_model_methods (perms : list string)
    (ms : gmap string JsonRpcMethod) : result (gmap string JsonRpcMethod) :=
  match perms with
  | [] => Ok ms
  | permission_name :: rest =>
      action ← action_segment permission_name;
      let method_name := "db__" ++ permission_name in
      generic_model_methods rest
        (if bool_decide (action ∈ orm_actions)
         then <[method_name := mkJsonRpcMethod self_handle_orm_call]> ms
         else ms)
  end.

(** The loop over [request.rpc.methods.items()]. *)
Definition rpc_defined_methods (request : Request)
    (ms : gmap string JsonRpcMethod) : gmap string JsonRpcMethod :=
  foldl (λ acc '(name, m),
           if _is_authorized request (method m) then <[name := m]> acc else acc)
        ms (rpc_methods (rpc request)).

(** The loop over [request.rpc.topics.items()]. *)
Definition authorized_topics (request : Request) : gset string :=
  foldl (λ acc '(name, m),
           if _is_authorized request m then acc ∪ {[name]} else acc)
        ∅ (rpc_topics (rpc request)).

Definition set_user (request : Request) (u : User) : Request :=
  mkRequest (cookies request) (rpc request) u
            (methods request) (topics request) (subscriptions request).

(** The block under [# django auth methods]. *)
Definition django_auth_methods (request : Request)
    (ms : gmap string JsonRpcMethod) : gmap string JsonRpcMethod :=
  if isinstance_AnonymousUser (user request)
  then <["login" := mkJsonRpcMethod self_login]> ms
  else ms.

(** The block under [# generic django model methods]. *)
Definition generic_django_model_methods (request : Request)
    (ms : gmap string JsonRpcMethod) : result (gmap string JsonRpcMethod) :=
  if generic_orm_methods self
  then generic_model_methods (get_all_permissions (user request)) ms
  else Ok ms.

Definition prepare_request (d : DB) (request : Request)
    (user_arg : option User) : result Request :=
  u ← match user_arg with
      | Some u => Ok u
      | None => get_user d request
      end;
  let request := set_user request u in
  let ms := django_auth_methods request ∅ in
  ms ← generic_django_model_methods request ms;
  let ms := rpc_defined_methods request ms in
  let ts := authorized_topics request in
  let subs := default ∅ (subscriptions request) in
  Ok (mkRequest (cookies request) (rpc request) (user request)
                ms ts (Some (ts ∩ subs))).

(** ** [login] *)

(** [request.params[key]]: only a dict can be indexed by a string. *)
Definition params_getitem (p : Value) (key : string) : result Value :=
  match p with
  | VDict d => match d !! key with
               | Some v => Ok v
               | None => Raise KeyError
               end
  | _ => Raise TypeError
  end.

(** [except (KeyError, TypeError, ValueError) as e:
       raise RpcInvalidParamsError from e]. *)
Definition except_params_errors {A} (r : result A) : result A :=
  match r with
  | Raise KeyError | Raise TypeError | Raise ValueError => Raise RpcInvalidParamsError
  | _ => r
  end.

Definition session_cookie (value : string) : Cookie :=
  {| cookie_name := SESSION_COOKIE_NAME (settings self);
     cookie_value := value;
     cookie_path := "/";
     cookie_max_age := None;
     cookie_domain := SESSION_COOKIE_DOMAIN (settings self);
     cookie_secure := if SESSION_COOKIE_SECURE (settings self)
                      then Some true else None;
     cookie_expires := None |}.

(** [login] returns its value together with the world and the HTTP
    request as it leaves them. *)
Definition login (w : World DB) (request : JsonRpcRequest)
    : result (bool * World DB * Request) :=
  '(username, password) ←
     except_params_errors
       (u ← params_getitem (params request) "username";
        p ← params_getitem (params request) "password";
        Ok (py_str u, py_str p));
  match authenticate (db w) username password with
  | None => Ok (false, w, http_request request)
  | Some u =>
      let '(key, d) := django_login_save (db w) u in
      let w := mkWorld d (ws_cookies w ++ [session_cookie key]) in
      http ← prepare_request (db w) (http_request request) (Some u);
      Ok (true, w, http)
  end.

(** ** The generic ORM methods *)

Definition dump_model_object (obj : ModelObject) : gmap string Value :=
  <["pk" := obj_pk obj]> (model_to_dict obj).

(** [request.msg.data['params'] or {}], then the [isinstance] test. *)
Definition lookups_of (p : Value) : result (gmap string Value) :=
  match py_or p (VDict ∅) with
  | VDict d => Ok d
  | _ => Raise RpcInvalidParamsError
  end.

Definition _model_view (d : DB) (request : JsonRpcRequest) (model : Model)
    : result (list (gmap string Value)) :=
  lookups ← lookups_of (params request);
  except_Exception_raise
    (objects ← objects_filter d model lookups;
     Ok (map dump_model_object objects))
    RpcInvalidParamsError.

Definition _model_delete (d : DB) (request : JsonRpcRequest) (model : Model)
    : result (bool * DB) :=
  lookups ← lookups_of (params request);
  d ← except_Exception_raise
        (objects_filter_delete d model lookups)
        RpcInvalidParamsError;
  Ok (true, d).

Definition _model_add (d : DB) (request : JsonRpcRequest) (model : Model)
    : result (gmap string Value * DB) :=
  values ← lookups_of (params request);
  if bool_decide (values = ∅) then Raise RpcInvalidParamsError
  else
    except_Exception_raise
      ('(new_object, d) ← objects_create d model values;
       Ok (dump_model_object new_object, d))
      RpcInvalidParamsError.

(** [params.pop('pk')]: [None] has no [pop], a list's [pop] wants an
    integer, a dict's raises [KeyError] when the key is missing. *)
Definition params_pop (p : Value) (key : string)
    : result (Value * gmap string Value) :=
  match p with
  | VDict d => match d !! key with
               | Some v => Ok (v, delete key d)
               | None => Raise KeyError
               end
  | VList _ => Raise TypeError
  | _ => Raise AttributeError
  end.

(** The [setattr] loop over [params.items()]. *)
Definition set_attributes (obj : ModelObject) (fields : gmap string Value)
    : ModelObject :=
  map_fold (λ field_name value o,
              mkModelObject (obj_pk o) (<[field_name := value]> (obj_attrs o)))
           obj fields.

Definition _model_change (d : DB) (request : JsonRpcRequest) (model : Model)
    : result (bool * DB) :=
  try_except
    ('(pk, fields) ← params_pop (params request) "pk";
     model_object ← objects_get d model pk;
     let model_object := set_attributes model_object fields in
     d ← object_save d model model_object;
     Ok (true, d))
    KeyError
    (Raise RpcInvalidParamsError).




End Backend.

(** ** A table-backed Django *)

(** Django run on in-memory tables: sessions and users keyed by session
    key and primary key, one table of rows per model.  Lookups are
    exact-match on a field or on [pk]; the exceptions are the ones
    Django raises for the same mistakes. *)
Module Tables.

Record Table : Type := mkTable {
  table_fields : list string;
  table_rows : list ModelObject;
  next_pk : Z
}.

Record TableDB : Type := mkTableDB {
  session_table : gmap string (gmap string string);
  user_table : gmap string User;
  (** username to password and primary key *)
  password_table : gmap string (string * string);
  model_tables : gmap string Table
}.

Definition attribute (o : ModelObject) (k : string) : option Value :=
  if bool_decide (k = "pk") then Some (obj_pk o) else obj_attrs o !! k.

Definition row_matches (lookups : gmap string Value) (o : ModelObject) : bool :=
  bool_decide (map_Forall (λ k v, attribute o k = Some v) lookups).

Definition known_lookups (t : Table) (lookups : gmap string Value) : bool :=
  bool_decide (map_Forall (λ k _, k = "pk" ∨ k ∈ table_fields t) lookups).

Definition with_table {A} (d : TableDB) (model : Model)
    (k : Table → result A) : result A :=
  match model_tables d !! model with
  | Some t => k t
  | None => Raise LookupError
  end.

Definition set_table (d : TableDB) (model : Model) (t : Table) : TableDB :=
  mkTableDB (session_table d) (user_table d) (password_table d)
            (<[model := t]> (model_tables d)).

Definition t_Session_objects_get (d : TableDB) (k : string) : result Session :=
  match session_table d !! k with
  | Some payload => Ok (mkSession k payload)
  | None => Raise Session_DoesNotExist
  end.

Definition t_User_objects_get (d : TableDB) (uid : option string) : result User :=
  match uid ≫= λ k, user_table d !! k with
  | Some u => Ok u
  | None => Raise User_DoesNotExist
  end.

Definition t_authenticate (d : TableDB) (username password : string) : option User :=
  '(pw, uid) ← password_table d !! username;
  u ← user_table d !! uid;
  if bool_decide (pw = password) && is_active u then Some u else None.

Definition t_django_login_save (d : TableDB) (u : User) : string * TableDB :=
  let key := fresh (dom (session_table d)) in
  let payload : gmap string string := {[ "_auth_user_id" := default "" (pk u) ]} in
  (key, mkTableDB (<[key := payload]> (session_table d)) (user_table d)
                  (password_table d) (model_tables d)).

Definition t_objects_filter (d : TableDB) (model : Model)
    (lookups : gmap string Value) : result (list ModelObject) :=
  with_table d model (λ t,
    if known_lookups t lookups
    then Ok (List.filter (row_matches lookups) (table_rows t))
    else Raise FieldError).

Definition t_objects_filter_delete (d : TableDB) (model : Model)
    (lookups : gmap string Value) : result TableDB :=
  with_table d model (λ t,
    if known_lookups t lookups
    then Ok (set_table d model
               (mkTable (table_fields t)
                        (List.filter (λ o, negb (row_matches lookups o)) (table_rows t))
                        (next_pk t)))
    else Raise FieldError).

Definition t_objects_create (d : TableDB) (model : Model)
    (values : gmap string Value) : result (ModelObject * TableDB) :=
  with_table d model (λ t,
    if negb (bool_decide (map_Forall (λ k _, k ∈ table_fields t) values))
    then Raise TypeError
    else if negb (forallb (λ f, bool_decide (is_Some (values !! f))) (table_fields t))
    then Raise (DatabaseError "NOT NULL constraint failed")
    else
      let o := mkModelObject (VInt (next_pk t)) values in
      Ok (o, set_table d model
               (mkTable (table_fields t) (table_rows t ++ [o]) (next_pk t + 1)))).

Definition t_objects_get (d : TableDB) (model : Model) (pk : Value)
    : result ModelObject :=
  with_table d model (λ t,
    match List.find (λ o, bool_decide (obj_pk o = pk)) (table_rows t) with
    | Some o => Ok o
    | None => Raise Model_DoesNotExist
    end).

Definition t_object_save (d : TableDB) (model : Model) (o : ModelObject)
    : result TableDB :=
  with_table d model (λ t,
    Ok (set_table d model
          (mkTable (table_fields t)
                   (map (λ r, if bool_decide (obj_pk r = obj_pk o) then o else r)
                        (table_rows t))
                   (next_pk t)))).

Definition t_apps_get_model (d : TableDB) (label : string) : result Model :=
  if bool_decide (is_Some (model_tables d !! label))
  then Ok label else Raise LookupError.

(** [str] on scalars; a container is only ever rendered as a whole. *)
Definition t_py_str (v : Value) : string :=
  match v with
  | VNone => "None"
  | VBool true => "True"
  | VBool false => "False"
  | VInt z => pretty z
  | VStr s => s
  | VList _ => "[...]"
  | VDict _ => "{...}"
  end.

#[global] Instance tables_django : Django TableDB := {|
  Session_objects_get := t_Session_objects_get;
  User_objects_get := t_User_objects_get;
  authenticate := t_authenticate;
  django_login_save := t_django_login_save;
  objects_filter := t_objects_filter;
  objects_filter_delete := t_objects_filter_delete;
  objects_create := t_objects_create;
  objects_get := t_objects_get;
  object_save := t_object_save;
  model_to_dict := λ o, <["id" := obj_pk o]> (obj_attrs o);
  apps_get_model := t_apps_get_model;
  py_str := t_py_str
|}.

End Tables.

(** The decision procedure in the words of the specification: four
    checks in order, the first failing one denies. *)
Definition spec_is_authorized (identity : User) (meta : PyCallable) : bool :=
  let required := default [] (getattr_permissions_required meta) in
  let predicates := default [] (getattr_tests meta) in
  if hasattr_login_required meta
     && (negb (_user_is_authenticated identity) || negb (is_active identity))
  then false
  else if negb (bool_decide (required = []))
          && negb (is_superuser identity)
          && negb (forallb (has_perm identity) required)
  then false
  else if negb (bool_decide (length predicates = 0))
          && negb (is_superuser identity)
          && negb (forallb (λ p, p identity) predicates)
  then false
  else true.

(** ** Sample data *)

(** A small deployment used to run the backend: two users, a registry
    of three methods and two topics, one model table. *)
Module Sample.
Import Tables.

Definition alice_perms : list string := ["shop.view_item"; "shop.audit_item"].

Definition alice : User :=
  {| user_class := UserModelClass; pk := Some "1";
     is_active := true; is_authenticated := AuthAttr true;
     is_superuser := false;
     has_perm := λ p, bool_decide (p ∈ alice_perms);
     get_all_permissions := alice_perms |}.

(** A superuser whose account has been deactivated. *)
Definition root : User :=
  {| user_class := UserModelClass; pk := Some "2";
     is_active := false; is_authenticated := AuthMethod (λ _, true);
     is_superuser := true;
     has_perm := λ _, false;
     get_all_permissions := [] |}.

Definition ping : Function := mkFunction "ping" false None None.
Definition whoami : Function := mkFunction "whoami" true None None.
Definition restock : Function :=
  mkFunction "restock" true (Some ["shop.change_item"]) (Some [is_superuser]).

Definition registry : JsonRpc :=
  {| rpc_methods := [("ping", mkJsonRpcMethod (Func ping));
                     ("whoami", mkJsonRpcMethod (Func whoami));
                     ("restock", mkJsonRpcMethod (Func restock))];
     rpc_topics := [("news", PyNone); ("stock", Func whoami)] |}.

(** The same registry after the application registered a method of its
    own under the name ["login"]. *)
Definition registry_with_login : JsonRpc :=
  {| rpc_methods := rpc_methods registry ++ [("login", mkJsonRpcMethod (Func ping))];
     rpc_topics := rpc_topics registry |}.

Definition fresh_request (r : JsonRpc) (cs : gmap string string) : Request :=
  mkRequest cs r AnonymousUser ∅ ∅ None.

Definition items : Table :=
  {| table_fields := ["client_id"; "number"];
     table_rows := [mkModelObject (VInt 1) {[ "client_id" := VInt 7; "number" := VInt 1 ]};
                    mkModelObject (VInt 2) {[ "client_id" := VInt 7; "number" := VInt 2 ]}];
     next_pk := 3 |}.

Definition database : TableDB :=
  {| session_table := {[ "abc" := {[ "_auth_user_id" := "1" ]};
                         "stale" := {[ "_auth_user_id" := "99" ]} ]};
     user_table := {[ "1" := alice; "2" := root ]};
     password_table := {[ "alice" := ("correct", "1") ]};
     model_tables := {[ "django_project.item" := items ]} |}.

Definition backend : DjangoAuthBackend :=
  mkBackend true (mkSettings "sessionid" None false).

Definition call (name : string) (p : Value) : JsonRpcRequest :=
  mkJsonRpcRequest (fresh_request registry ∅) name p.

End Sample.

(** ** Substrings *)


(** ** [decorators.py] *)

Module Decorators.

(** A function object with the two attributes the decorators set; an
    attribute the function does not have is [None].  [V] is the type of
    the validator objects. *)
Record FunctionObject (V : Type) : Type := mkFunctionObject {
  fn_name : string;
  fn_raw_response : option bool;
  fn_validators : option (gmap string V)
}.
Arguments mkFunctionObject {V} fn_name fn_raw_response fn_validators.
Arguments fn_name {V} f.
Arguments fn_raw_response {V} f.
Arguments fn_validators {V} f.

(** The inner [decorator] of [raw_response]. *)
Definition raw_response_decorator {V} (function : FunctionObject V)
    : FunctionObject V :=
  mkFunctionObject (fn_name function) (Some true) (fn_validators function).

(** [raw_response] gives back the decorated function when it is handed
    one, and the decorator itself when it is called without. *)
Inductive raw_response_value (V : Type) : Type :=
  | Decorated (function : FunctionObject V)
  | Decorator (decorator : FunctionObject V → FunctionObject V).
Arguments Decorated {V} function.
Arguments Decorator {V} decorator.

Definition raw_response {V} (function : option (FunctionObject V))
    : raw_response_value V :=
  match function with
  | Some f => Decorated (raw_response_decorator f)
  | None => Decorator raw_response_decorator
  end.

(** [validate(kwargs)], applied to a function: the inner [decorator].
    [dict.update] lets the new entries win. *)
Definition validate {V} (kwargs : gmap string V) (function : FunctionObject V)
    : FunctionObject V :=
  let function :=
    match fn_validators function with
    | None => mkFunctionObject (fn_name function) (fn_raw_response function)
                               (Some ∅)
    | Some _ => function
    end in
  mkFunctionObject (fn_name function) (fn_raw_response function)
                   (Some (kwargs ∪ default ∅ (fn_validators function))).

End Decorators.

(** ** [tests/django_project/django_project/models.py] *)

Module Models.

(** The test project's model: two integer fields. *)
Record Item : Type := mkItem {
  client_id : Z;
  number : Z
}.

(** [Item.__str__]: the two fields, formatted in decimal. *)
Definition __str__ (self : Item) : string :=
  "client_id: " ++ pretty (client_id self) ++ ", number: " ++ pretty (number self).

End Models.

(** ** A Django whose database is down *)

(** Every query fails with a [DatabaseError]; only [model_to_dict] and
    [str], which touch no database, answer. *)
Module Outage.

Inductive Down : Type := down.

Definition lost : exn := DatabaseError "connection lost".

Definition outage_django : Django Down := {|
  Session_objects_get := λ _ _, Raise lost;
  User_objects_get := λ _ _, Raise lost;
  authenticate := λ _ _ _, None;
  django_login_save := λ d _, ("", d);
  objects_filter := λ _ _ _, Raise lost;
  objects_filter_delete := λ _ _ _, Raise lost;
  objects_create := λ _ _ _, Raise lost;
  objects_get := λ _ _ _, Raise lost;
  object_save := λ _ _ _, Raise lost;
  model_to_dict := λ o, obj_attrs o;
  apps_get_model := λ _ label, Ok label;
  py_str := Tables.t_py_str
|}.

End Outage.

(** ** Further sample data *)

Module Cases.


Definition carol : User :=
  {| user_class := UserModelClass; pk := Some "4";
     is_active := true; is_authenticated := AuthAttr true;
     is_superuser := false;
     has_perm := λ _, false;
     get_all_permissions := ["shop.view_item"; "staff"] |}.

(** An active, authenticated superuser. *)
Definition admin : User :=
  {| user_class := UserModelClass; pk := Some "5";
     is_active := true; is_authenticated := AuthAttr true;
     is_superuser := true;
     has_perm := λ _, true;
     get_all_permissions := [] |}.

(** A deployment whose session cookie is not called ["sessionid"]. *)
Definition renamed_backend : DjangoAuthBackend :=
  mkBackend false (mkSettings "sid" None true).

Definition plain_backend : DjangoAuthBackend :=
  mkBackend false (mkSettings "sessionid" None false).

(** The sample registry after the application registered two methods of
    its own under names of the generic ORM methods. *)
Definition registry_with_generic_names : JsonRpc :=
  {| rpc_methods :=
       rpc_methods Sample.registry
       ++ [("db__shop.view_item", mkJsonRpcMethod (Func Sample.ping));
           ("db__shop.audit_item", mkJsonRpcMethod (Func Sample.ping))];
     rpc_topics := rpc_topics Sample.registry |}.

End Cases.

(** * Properties *)

(** ** Authorization *)

Lemma run_tests_forallb ts u : run_tests ts u = forallb (λ p, p u) ts.
Proof.
  induction ts as [|t ts IH]; simpl; [done|].
  destruct (t u); simpl; auto.
Qed.

Lemma is_authorized_spec (request : Request) (m : PyCallable) :
  _is_authorized request m = spec_is_authorized (user request) m.
Proof.
  unfold _is_authorized, spec_is_authorized.
  generalize (user request) as u. intros u.
  rewrite (orb_comm (negb (is_active u))).
  destruct (hasattr_login_required m
            && (negb (_user_is_authenticated u) || negb (is_active u))); [done|].
  destruct (getattr_permissions_required m) as [ps|],
           (getattr_tests m) as [ts|]; simpl;
    rewrite ?run_tests_forallb.
  all: try (destruct ps as [|p ps]); try (destruct ts as [|t ts]).
  all: destruct (is_superuser u); simpl.
  all: repeat match goal with |- context [has_perms ?u ?l] => change (has_perms u l) with (forallb (has_perm u) l) end.
  all: simpl.
  all: try done.
  all: repeat match goal with
         | |- context [negb ?b] => destruct b; simpl
         end; done.
Qed.

(** C2. The decision follows the four checks of the specification in
    order.  A method that is login-required denies every identity that
    is not active or not authenticated, whatever its superuser flag, its
    permissions and the method's tests; an identity that passes this
    first check and is a superuser is allowed without its permissions
    or the tests being consulted. *)
Theorem is_authorized_login_gate_precedes_superuser (request : Request) (m : PyCallable) :
  _is_authorized request m = spec_is_authorized (user request) m
  ∧ (hasattr_login_required m = true →
     is_active (user request) = false
       ∨ _user_is_authenticated (user request) = false →
     _is_authorized request m = false)
  ∧ (is_superuser (user request) = true →
     _is_authorized request m
     = negb (hasattr_login_required m
             && (negb (is_active (user request))
                 || negb (_user_is_authenticated (user request))))).
Proof.
  split; [apply is_authorized_spec|]. unfold _is_authorized. split.
  - intros Hl Hu. rewrite Hl.
    destruct Hu as [-> | ->]; simpl; [done|]. by rewrite orb_true_r.
  - intros Hs. rewrite Hs. simpl.
    destruct (hasattr_login_required m && _); simpl; [done|].
    destruct (getattr_permissions_required m), (getattr_tests m); done.
Qed.

Lemma is_authorized_login_gate_precedes_superuser_witness :
  let request := set_user (Sample.fresh_request Sample.registry ∅) Sample.root in
  is_superuser (user request) = true
  ∧ _is_authorized request (Func Sample.restock) = false.
Proof.
  simpl. split; [reflexivity|].
  apply (proj1 (proj2 (is_authorized_login_gate_precedes_superuser
           (set_user (Sample.fresh_request Sample.registry ∅) Sample.root)
           (Func Sample.restock)))).
  - reflexivity.
  - left. reflexivity.
Defined.

(** ** Identity resolution *)

(** On the table-backed Django every lookup failure is a [DoesNotExist],
    so [get_user] returns for every request whatsoever. *)
Lemma get_user_tables_total (d : Tables.TableDB) (request : Request) :
  returns (get_user d request).
Proof.
  unfold returns, get_user. simpl.
  destruct (negb _); [|by eexists].
  unfold Tables.t_Session_objects_get.
  destruct (Tables.session_table d !! _) as [payload|]; simpl; [|by eexists].
  unfold Tables.t_User_objects_get.
  destruct (mbind (M:=option) _ _) as [u|]; simpl; by eexists.
Qed.



(** ** [str.split] on a one-character separator *)

Lemma append_empty (y : string) : "" ++ y = y.
Proof. reflexivity. Qed.

Lemma append_String (c : ascii) (x y : string) :
  String c x ++ y = String c (x ++ y).
Proof. reflexivity. Qed.

Lemma split_single_cons (a c : ascii) (s : string) :
  split (String a "") (String c s)
  = if Ascii.eqb c a then "" :: split (String a "") s
    else cons_head c (split (String a "") s).
Proof.
  unfold split. simpl.
  destruct (Ascii.eqb_spec c a) as [->|Hne].
  - destruct (ascii_dec a a); [|done]. by destruct s.
  - destruct (ascii_dec a c) as [->|]; done.
Qed.

Lemma split_nonempty (sep s : string) (skip : nat) :
  ∃ h t, split_from sep skip s = h :: t.
Proof.
  revert skip. induction s as [|c s IH]; intros skip; [by exists "", []|].
  destruct skip as [|k]; [|apply IH].
  cbn [split_from].
  destruct (String.prefix sep (String c s)); [by eexists _, _|].
  destruct (IH 0) as (h & t & ->). by eexists _, _.
Qed.

(** Up to the first separator the text is the first piece. *)
Lemma split_single_app (a : ascii) (x y : string) :
  char_in a x = false →
  split (String a "") (x ++ String a y) = x :: split (String a "") y.
Proof.
  induction x as [|c x IH]; cbn [char_in]; intros Hx.
  - rewrite append_empty, split_single_cons. by rewrite Ascii.eqb_refl.
  - apply orb_false_iff in Hx as [Hc Hx].
    rewrite append_String, split_single_cons, Hc, IH by done. done.
Qed.

(** Separator-free text in front of [y] only lengthens the first piece
    of [y]. *)
Lemma split_single_head (a : ascii) (x y h : string) (t : list string) :
  char_in a x = false →
  split (String a "") y = h :: t →
  split (String a "") (x ++ y) = (x ++ h) :: t.
Proof.
  intros Hx Hy. induction x as [|c x IH]; [by rewrite !append_empty|].
  cbn [char_in] in Hx. apply orb_false_iff in Hx as [Hc Hx].
  by rewrite !append_String, split_single_cons, Hc, IH.
Qed.

(** The action segment of a permission name of the documented form. *)
Lemma action_segment_of_form (namespace action resource : string) :
  char_in "." namespace = false →
  char_in "." action = false →
  char_in "_" action = false →
  action_segment (namespace ++ "." ++ action ++ "_" ++ resource) = Ok action.
Proof.
  intros Hn Ha1 Ha2. unfold action_segment.
  change ("." ++ action ++ "_" ++ resource)
    with (String "." (action ++ String "_" resource)).
  rewrite split_single_app by done.
  destruct (split_nonempty "." resource 0) as (h & t & Hr).
  assert (split "." (String "_" resource) = String "_" h :: t) as Hs.
  { rewrite split_single_cons. cbn [Ascii.eqb Bool.eqb]. unfold split. by rewrite Hr. }
  rewrite (split_single_head _ _ _ _ _ Ha1 Hs). cbn [getitem lookup list_lookup mbind result_bind].
  by rewrite split_single_app.
Qed.

(** ** The rebuild of the connection state *)

Section Rebuild.
Context {DB : Type} `{!Django DB}.
Variable self : DjangoAuthBackend.

Local Abbreviation orm_handler := (mkJsonRpcMethod self_handle_orm_call).

Lemma generic_model_methods_cons p perms ms :
  generic_model_methods (p :: perms) ms
  = action ← action_segment p;
    generic_model_methods perms
      (if bool_decide (action ∈ orm_actions)
       then <["db__" ++ p := orm_handler]> ms else ms).
Proof. reflexivity. Qed.

(** The loop only ever writes the ORM handler. *)
Lemma generic_model_methods_keeps perms ms ms' n :
  generic_model_methods perms ms = Ok ms' →
  ms !! n = Some orm_handler → ms' !! n = Some orm_handler.
Proof.
  revert ms. induction perms as [|p perms IH]; intros ms.
  - intros [= <-]. done.
  - rewrite generic_model_methods_cons.
    destruct (action_segment p) as [a|e]; [|done]. cbn [mbind result_bind].
    intros Hrest Hn. apply (IH _ Hrest).
    case_bool_decide; [|done].
    destruct (decide ("db__" ++ p = n)) as [<-|Hne].
    + apply lookup_insert_eq.
    + by rewrite lookup_insert_ne.
Qed.

Lemma generic_model_methods_entry perms ms ms' p a :
  generic_model_methods perms ms = Ok ms' →
  p ∈ perms → action_segment p = Ok a → a ∈ orm_actions →
  ms' !! ("db__" ++ p) = Some orm_handler.
Proof.
  revert ms. induction perms as [|q perms IH]; intros ms Hloop Hp Ha Hin.
  - by apply elem_of_nil in Hp.
  - rewrite generic_model_methods_cons in Hloop.
    apply elem_of_cons in Hp as [<-|Hp].
    + rewrite Ha in Hloop. cbn [mbind result_bind] in Hloop.
      rewrite bool_decide_eq_true_2 in Hloop by done.
      apply (generic_model_methods_keeps _ _ _ _ Hloop), lookup_insert_eq.
    + destruct (action_segment q) as [b|e]; [|done].
      by apply (IH _ Hloop).
Qed.

Lemma generic_model_methods_other perms ms ms' n :
  generic_model_methods perms ms = Ok ms' →
  (∀ p a, p ∈ perms → action_segment p = Ok a → a ∈ orm_actions →
          n ≠ "db__" ++ p) →
  ms' !! n = ms !! n.
Proof.
  revert ms. induction perms as [|q perms IH]; intros ms Hloop Hn.
  - by injection Hloop as <-.
  - rewrite generic_model_methods_cons in Hloop.
    destruct (action_segment q) as [b|e] eqn:Hq; [|done].
    cbn [mbind result_bind] in Hloop.
    rewrite (IH _ Hloop).
    + case_bool_decide as Hb; [|done].
      rewrite lookup_insert_ne; [done|].
      intros Heq. by apply (Hn q b); [left| | |].
    + intros p a Hp. apply Hn. by right.
Qed.

Lemma generic_model_methods_returns perms ms :
  Forall (λ p, returns (action_segment p)) perms →
  returns (generic_model_methods perms ms).
Proof.
  intros Hall. revert ms. induction Hall as [|p perms [a Ha] _ IH]; intros ms.
  - by exists ms.
  - rewrite generic_model_methods_cons, Ha. apply IH.
Qed.

Lemma generic_model_methods_raises perms ms ms' :
  generic_model_methods perms ms = Ok ms' →
  Forall (λ p, returns (action_segment p)) perms.
Proof.
  revert ms. induction perms as [|p perms IH]; intros ms Hloop; [constructor|].
  rewrite generic_model_methods_cons in Hloop.
  destruct (action_segment p) as [a|e] eqn:Hp; [|done].
  constructor; [by exists a|]. by eapply IH.
Qed.

(** The method and topic loops read only [request.user] and
    [request.rpc]. *)
Lemma rpc_defined_methods_ext (r1 r2 : Request) ms :
  rpc r1 = rpc r2 → user r1 = user r2 →
  rpc_defined_methods r1 ms = rpc_defined_methods r2 ms.
Proof.
  unfold rpc_defined_methods, _is_authorized. by intros -> ->.
Qed.

Lemma authorized_topics_ext (r1 r2 : Request) :
  rpc r1 = rpc r2 → user r1 = user r2 →
  authorized_topics r1 = authorized_topics r2.
Proof.
  unfold authorized_topics, _is_authorized. by intros -> ->.
Qed.

(** A name the registry does not hold keeps whatever the earlier blocks
    bound to it. *)
Lemma rpc_defined_methods_notin (request : Request) ms n :
  n ∉ (rpc_methods (rpc request)).*1 →
  rpc_defined_methods request ms !! n = ms !! n.
Proof.
  unfold rpc_defined_methods. generalize (rpc_methods (rpc request)) as l.
  intros l. revert ms. induction l as [|[name m] l IH]; intros ms Hn; [done|].
  simpl in *. apply not_elem_of_cons in Hn as [Hne Hn].
  rewrite IH by done.
  destruct (_is_authorized request (method m)); [|done].
  by rewrite lookup_insert_ne.
Qed.

(** The rebuild, stage by stage. *)
Lemma prepare_request_stages (d : DB) (request request' : Request)
    (user_arg : option User) :
  prepare_request self d request user_arg = Ok request' →
  ∃ u ms,
    match user_arg with Some u => Ok u | None => get_user d request end = Ok u
    ∧ generic_django_model_methods self (set_user request u)
        (django_auth_methods (set_user request u) ∅) = Ok ms
    ∧ request'
      = mkRequest (cookies request) (rpc request) u
          (rpc_defined_methods (set_user request u) ms)
          (authorized_topics (set_user request u))
          (Some (authorized_topics (set_user request u)
                 ∩ default ∅ (subscriptions request))).
Proof.
  unfold prepare_request.
  destruct (match user_arg with Some _ => _ | None => _ end) as [u|e]; [|done].
  cbn [mbind result_bind].
  destruct (generic_django_model_methods _ _ _) as [ms|e] eqn:Hg; [|done].
  cbn [mbind result_bind]. intros Heq. injection Heq as <-.
  by exists u, ms.
Qed.

Lemma prepare_request_run (d : DB) (request : Request)
    (user_arg : option User) (u : User) ms :
  match user_arg with Some u => Ok u | None => get_user d request end = Ok u →
  generic_django_model_methods self (set_user request u)
    (django_auth_methods (set_user request u) ∅) = Ok ms →
  prepare_request self d request user_arg
  = Ok (mkRequest (cookies request) (rpc request) u
          (rpc_defined_methods (set_user request u) ms)
          (authorized_topics (set_user request u))
          (Some (authorized_topics (set_user request u)
                 ∩ default ∅ (subscriptions request)))).
Proof.
  unfold prepare_request. intros -> . cbn [mbind result_bind].
  intros ->. done.
Qed.

End Rebuild.

(** C4. Whenever the rebuild returns, the subscriptions it leaves are
    the previous subscriptions intersected with the topics it has just
    computed, hence a subset of them; nothing is raised for a dropped
    subscription.  The rebuild does return as soon as the identity is
    resolved and, with the generic ORM methods on, every permission name
    has an action segment. *)
Theorem prepare_request_subscriptions_within_topics {DB : Type} `{!Django DB}
    (self : DjangoAuthBackend) (d : DB) (request : Request)
    (user_arg : option User) :
  (∀ request',
      prepare_request self d request user_arg = Ok request' →
      subscriptions request'
      = Some (topics request' ∩ default ∅ (subscriptions request))
      ∧ default ∅ (subscriptions request') ⊆ topics request')
  ∧ (∀ u,
      match user_arg with Some u => Ok u | None => get_user d request end = Ok u →
      generic_orm_methods self = false
        ∨ Forall (λ p, returns (action_segment p)) (get_all_permissions u) →
      returns (prepare_request self d request user_arg)).
Proof.
  split.
  - intros request' Hrun.
    destruct (prepare_request_stages self d request request' user_arg Hrun)
      as (u & ms & _ & _ & ->).
    simpl. split; [done|].
    intros name Hname. by apply elem_of_intersection in Hname as [? _].
  - intros u Hu Hperms.
    assert (returns (generic_django_model_methods self (set_user request u)
                       (django_auth_methods (set_user request u) ∅))) as [ms Hms].
    { unfold generic_django_model_methods.
      destruct Hperms as [-> | Hall]; [by eexists|].
      destruct (generic_orm_methods self); [|by eexists].
      by apply generic_model_methods_returns. }
    eexists. by apply prepare_request_run.
Qed.

Lemma prepare_request_subscriptions_within_topics_witness :
  let request :=
    mkRequest ∅ Sample.registry AnonymousUser ∅ ∅ (Some {[ "news"; "stock" ]}) in
  ∃ request',
    prepare_request Sample.backend Sample.database request None = Ok request'
    ∧ default ∅ (subscriptions request') ⊆ topics request'.
Proof.
  intros request.
  pose proof (prepare_request_subscriptions_within_topics
                Sample.backend Sample.database request None) as [Hsub Hret].
  destruct (Hret AnonymousUser) as [request' Hrun].
  - vm_compute. reflexivity.
  - right. constructor.
  - exists request'. split; [exact Hrun|]. exact (proj2 (Hsub request' Hrun)).
Defined.

(** C5. The rebuild is idempotent: run again on the request it has
    produced, with the same identity argument, database and registry,
    it produces that very request again: the same method map, the same
    topics and the same subscriptions. *)
Theorem prepare_request_idempotent {DB : Type} `{!Django DB}
    (self : DjangoAuthBackend) (d : DB) (request request' : Request)
    (user_arg : option User) :
  prepare_request self d request user_arg = Ok request' →
  prepare_request self d request' user_arg = Ok request'.
Proof.
  intros Hrun.
  destruct (prepare_request_stages self d request request' user_arg Hrun)
    as (u & ms & Hu & Hms & ->).
  set (r1 := mkRequest _ _ _ _ _ _).
  rewrite (prepare_request_run self d r1 user_arg u ms).
  - rewrite (rpc_defined_methods_ext (set_user r1 u) (set_user request u)) by done.
    rewrite (authorized_topics_ext (set_user r1 u) (set_user request u)) by done.
    unfold r1. cbn [cookies rpc subscriptions default]. do 3 f_equal.
    unfold id. by rewrite (assoc_L (∩)), (idemp_L (∩)).
  - destruct user_arg; [done|]. exact Hu.
  - exact Hms.
Qed.

Lemma prepare_request_idempotent_witness :
  let request :=
    mkRequest {[ "sessionid" := "abc" ]} Sample.registry AnonymousUser ∅ ∅
              (Some {[ "news"; "weather" ]}) in
  ∃ request',
    prepare_request Sample.backend Sample.database request None = Ok request'
    ∧ prepare_request Sample.backend Sample.database request' None = Ok request'.
Proof.
  intros request. eexists. split.
  - vm_compute. reflexivity.
  - apply (prepare_request_idempotent Sample.backend Sample.database request).
    vm_compute. reflexivity.
Defined.

(** No generic method is named ["login"], and the name of a generic
    method determines its permission. *)
Lemma login_not_generic (p : string) : "login" ≠ "db__" ++ p.
Proof. rewrite !append_String. discriminate. Qed.

Lemma generic_name_inj (p q : string) : "db__" ++ p = "db__" ++ q → p = q.
Proof. rewrite !append_String, !append_empty. by intros [= ->]. Qed.

Lemma django_auth_methods_lookup (request : Request) (n : string) :
  django_auth_methods request ∅ !! n
  = if isinstance_AnonymousUser (user request) && bool_decide (n = "login")
    then Some (mkJsonRpcMethod self_login) else None.
Proof.
  unfold django_auth_methods.
  destruct (isinstance_AnonymousUser (user request)); simpl; [|done].
  case_bool_decide as Hn.
  - subst n. apply lookup_insert_eq.
  - by rewrite lookup_insert_ne.
Qed.

(** C6 as worded fails.  An application may register a method of
    its own under the name ["login"]; the registry loop runs last, so an
    authenticated identity authorized for that method finds ["login"]
    in its method map. *)
Lemma login_listed_for_authenticated_user :
  ∃ request',
    prepare_request Sample.backend Sample.database
      (Sample.fresh_request Sample.registry_with_login ∅) (Some Sample.alice)
    = Ok request'
    ∧ isinstance_AnonymousUser (user request') = false
    ∧ methods request' !! "login" = Some (mkJsonRpcMethod (Func Sample.ping)).
Proof.
  eexists. split; [vm_compute; reflexivity|].
  split; vm_compute; reflexivity.
Qed.

(** C6, amended.  When the method registry holds no method named
    ["login"], the rebuilt method map binds ["login"] to the backend's
    own login method if the identity is an [AnonymousUser], and has no
    ["login"] entry otherwise. *)
Theorem prepare_request_login_iff_anonymous {DB : Type} `{!Django DB}
    (self : DjangoAuthBackend) (d : DB) (request request' : Request)
    (user_arg : option User) :
  "login" ∉ (rpc_methods (rpc request)).*1 →
  prepare_request self d request user_arg = Ok request' →
  methods request' !! "login"
  = if isinstance_AnonymousUser (user request')
    then Some (mkJsonRpcMethod self_login) else None.
Proof.
  intros Hreg Hrun.
  destruct (prepare_request_stages self d request request' user_arg Hrun)
    as (u & ms & _ & Hms & ->).
  cbn [methods user].
  rewrite rpc_defined_methods_notin by done.
  assert (ms !! "login" = django_auth_methods (set_user request u) ∅ !! "login")
    as ->.
  { unfold generic_django_model_methods in Hms.
    destruct (generic_orm_methods self); [|by injection Hms as <-].
    apply (generic_model_methods_other _ _ _ _ Hms).
    intros p _ _ _ _. apply login_not_generic. }
  rewrite django_auth_methods_lookup. cbn [user set_user].
  by rewrite bool_decide_eq_true_2, andb_true_r.
Qed.

Lemma prepare_request_login_iff_anonymous_witness :
  ∃ request',
    prepare_request Sample.backend Sample.database
      (Sample.fresh_request Sample.registry {[ "sessionid" := "abc" ]}) None
    = Ok request'
    ∧ methods request' !! "login" = None.
Proof.
  eexists. split; [vm_compute; reflexivity|].
  rewrite (prepare_request_login_iff_anonymous Sample.backend Sample.database
             (Sample.fresh_request Sample.registry {[ "sessionid" := "abc" ]})
             _ None).
  - vm_compute. reflexivity.
  - apply (bool_decide_unpack _). vm_compute. exact I.
  - vm_compute. reflexivity.
Defined.

(** The permission loop inside the rebuild.  With the generic ORM
    methods on, a rebuild that returns has run the permission loop over
    the identity's permissions on top of the built-in methods, and the
    registry loop on top of that, which leaves every name the registry
    does not hold as the permission loop bound it.  In the map the
    permission loop leaves, every permission name has an action
    segment; the name ["db__<permission>"] is bound to the generic ORM
    handler when that segment is one of view, add, change and delete,
    and is not bound at all otherwise.  For a permission name
    ["<namespace>.<action>_<resource>"] the segment is [<action>]. *)
Lemma prepare_request_permission_loop {DB : Type} `{!Django DB}
    (self : DjangoAuthBackend) (d : DB) (request request' : Request)
    (user_arg : option User) :
  generic_orm_methods self = true →
  prepare_request self d request user_arg = Ok request' →
  ∃ ms,
    generic_model_methods (get_all_permissions (user request'))
      (django_auth_methods request' ∅) = Ok ms
    ∧ methods request' = rpc_defined_methods request' ms
    ∧ (∀ n, n ∉ (rpc_methods (rpc request')).*1 →
         methods request' !! n = ms !! n)
    ∧ (∀ p, p ∈ get_all_permissions (user request') →
         ∃ action,
           action_segment p = Ok action
           ∧ ms !! ("db__" ++ p)
             = if bool_decide (action ∈ orm_actions)
               then Some (mkJsonRpcMethod self_handle_orm_call) else None)
    ∧ (∀ namespace action resource,
         char_in "." namespace = false →
         char_in "." action = false →
         char_in "_" action = false →
         namespace ++ "." ++ action ++ "_" ++ resource
           ∈ get_all_permissions (user request') →
         ms !! ("db__" ++ namespace ++ "." ++ action ++ "_" ++ resource)
         = if bool_decide (action ∈ orm_actions)
           then Some (mkJsonRpcMethod self_handle_orm_call) else None).
Proof.
  intros Hgen Hrun.
  destruct (prepare_request_stages self d request request' user_arg Hrun)
    as (u & ms & _ & Hms & ->).
  unfold generic_django_model_methods in Hms. rewrite Hgen in Hms.
  cbn [user set_user] in Hms. cbn [user methods].
  assert (∀ p, p ∈ get_all_permissions u →
            ∃ action,
              action_segment p = Ok action
              ∧ ms !! ("db__" ++ p)
                = if bool_decide (action ∈ orm_actions)
                  then Some (mkJsonRpcMethod self_handle_orm_call) else None)
    as Hall.
  { intros p Hp.
    pose proof (generic_model_methods_raises _ _ _ Hms) as Hsegs.
    rewrite Forall_forall in Hsegs. destruct (Hsegs p Hp) as [a Ha].
    exists a. split; [done|]. case_bool_decide as Hact.
    - by apply (generic_model_methods_entry _ _ _ p a Hms).
    - rewrite (generic_model_methods_other _ _ _ _ Hms).
      + rewrite django_auth_methods_lookup.
        rewrite (bool_decide_eq_false_2 ("db__" ++ p = "login")).
        * by rewrite andb_false_r.
        * intros Heq. by apply (login_not_generic p).
      + intros q b Hq Hb Hin Heq. apply generic_name_inj in Heq as <-.
        rewrite Ha in Hb. by injection Hb as <-. }
  exists ms. split; [exact Hms|]. split; [|split; [|split]].
  - by apply rpc_defined_methods_ext.
  - intros n Hn. by apply rpc_defined_methods_notin.
  - exact Hall.
  - intros namespace action resource Hn Ha1 Ha2 Hp.
    destruct (Hall _ Hp) as (a & Ha & ->).
    rewrite action_segment_of_form in Ha by done. by injection Ha as <-.
Qed.

(** C7 as worded fails.  An application may register methods of its
    own under the names of generic methods; the registry loop runs last,
    so for a permission whose action is view the name is bound to the
    application's method and not to the ORM handler, and for a
    permission whose action is none of the four the name is bound all
    the same. *)
Lemma generic_method_replaced_by_registry :
  ∃ request',
    prepare_request Sample.backend Sample.database
      (Sample.fresh_request Cases.registry_with_generic_names ∅)
      (Some Sample.alice)
    = Ok request'
    ∧ get_all_permissions (user request')
      = ["shop.view_item"; "shop.audit_item"]
    ∧ action_segment "shop.view_item" = Ok "view"
    ∧ methods request' !! "db__shop.view_item"
      = Some (mkJsonRpcMethod (Func Sample.ping))
    ∧ action_segment "shop.audit_item" = Ok "audit"
    ∧ methods request' !! "db__shop.audit_item"
      = Some (mkJsonRpcMethod (Func Sample.ping)).
Proof.
  eexists. split; [vm_compute; reflexivity|].
  repeat split; vm_compute; reflexivity.
Qed.

(** C7, amended.  With the generic ORM methods on and a method registry
    that holds no method named ["db__<permission>"] for a permission of
    the identity, the rebuilt method map is as the permission loop left
    it at those names: every permission name of the identity has an
    action segment; ["db__<permission>"] is bound to the generic ORM
    handler when that segment is one of view, add, change and delete,
    and is not bound at all otherwise.  For a permission name
    ["<namespace>.<action>_<resource>"] the segment is [<action>]. *)
Theorem prepare_request_generic_methods_unless_registered
    {DB : Type} `{!Django DB}
    (self : DjangoAuthBackend) (d : DB) (request request' : Request)
    (user_arg : option User) :
  generic_orm_methods self = true →
  prepare_request self d request user_arg = Ok request' →
  (∀ p, p ∈ get_all_permissions (user request') →
        "db__" ++ p ∉ (rpc_methods (rpc request)).*1) →
  (∀ p, p ∈ get_all_permissions (user request') →
     ∃ action,
       action_segment p = Ok action
       ∧ methods request' !! ("db__" ++ p)
         = if bool_decide (action ∈ orm_actions)
           then Some (mkJsonRpcMethod self_handle_orm_call) else None)
  ∧ (∀ namespace action resource,
       char_in "." namespace = false →
       char_in "." action = false →
       char_in "_" action = false →
       namespace ++ "." ++ action ++ "_" ++ resource
         ∈ get_all_permissions (user request') →
       methods request' !! ("db__" ++ namespace ++ "." ++ action ++ "_" ++ resource)
       = if bool_decide (action ∈ orm_actions)
         then Some (mkJsonRpcMethod self_handle_orm_call) else None).
Proof.
  intros Hgen Hrun Hreg.
  assert (rpc request' = rpc request) as Hrpc.
  { destruct (prepare_request_stages self d request request' user_arg Hrun)
      as (u & ms & _ & _ & ->). done. }
  destruct (prepare_request_permission_loop self d request request' user_arg
              Hgen Hrun) as (ms & _ & _ & Hfinal & Hall & Hform).
  rewrite Hrpc in Hfinal. split.
  - intros p Hp. destruct (Hall p Hp) as (action & Ha & Hms).
    exists action. split; [done|]. rewrite Hfinal by auto. exact Hms.
  - intros namespace action resource Hn Ha1 Ha2 Hp.
    rewrite Hfinal by auto. by apply Hform.
Qed.

Lemma prepare_request_generic_methods_unless_registered_witness :
  ∃ request',
    prepare_request Sample.backend Sample.database
      (Sample.fresh_request Sample.registry ∅) (Some Sample.alice)
    = Ok request'
    ∧ methods request' !! "db__shop.view_item"
      = Some (mkJsonRpcMethod self_handle_orm_call)
    ∧ methods request' !! "db__shop.audit_item" = None.
Proof.
  eexists.
  assert (prepare_request Sample.backend Sample.database
            (Sample.fresh_request Sample.registry ∅) (Some Sample.alice)
          = Ok _) as Hrun by (vm_compute; reflexivity).
  destruct (prepare_request_generic_methods_unless_registered
              Sample.backend Sample.database _ _ _ eq_refl Hrun)
    as [_ Hform].
  - intros p Hp. apply (bool_decide_unpack _).
    vm_compute in Hp.
    apply elem_of_cons in Hp as [->|Hp]; [vm_compute; exact I|].
    apply elem_of_cons in Hp as [->|Hp]; [vm_compute; exact I|].
    by apply elem_of_nil in Hp.
  - split; [exact Hrun|]. split.
    + apply (Hform "shop" "view" "item"); try reflexivity.
      apply (bool_decide_unpack _). vm_compute. exact I.
    + apply (Hform "shop" "audit" "item"); try reflexivity.
      apply (bool_decide_unpack _). vm_compute. exact I.
Defined.

(** ** Login *)

(** Parameters that are not a dict holding both keys are refused with
    [RpcInvalidParamsError] before Django is asked anything. *)
Lemma login_invalid_params {DB : Type} `{!Django DB}
    (self : DjangoAuthBackend) (w : World DB) (request : JsonRpcRequest) :
  (∀ u, params_getitem (params request) "username" ≠ Ok u)
    ∨ (∀ p, params_getitem (params request) "password" ≠ Ok p) →
  login self w request = Raise RpcInvalidParamsError.
Proof.
  unfold login, params_getitem.
  destruct (params request) as [| | | | |dict]; try done.
  destruct (dict !! "username") as [u|]; [|done].
  destruct (dict !! "password") as [p|]; [|done].
  intros [Hu|Hp]; [by destruct (Hu u)|by destruct (Hp p)].
Qed.

(** Accepted credentials: a session is stored, its key is issued as the
    session cookie, and the connection state is rebuilt for the user. *)
Lemma login_accepted {DB : Type} `{!Django DB}
    (self : DjangoAuthBackend) (w : World DB) (request : JsonRpcRequest)
    (username password : Value) (u : User) (key : string) (d' : DB)
    (http : Request) :
  params_getitem (params request) "username" = Ok username →
  params_getitem (params request) "password" = Ok password →
  authenticate (db w) (py_str username) (py_str password) = Some u →
  django_login_save (db w) u = (key, d') →
  prepare_request self d' (http_request request) (Some u) = Ok http →
  login self w request
  = Ok (true, mkWorld d' (ws_cookies w ++ [session_cookie self key]), http).
Proof.
  unfold login. intros -> -> . cbn [mbind result_bind except_params_errors].
  intros -> ->. cbn [db]. by intros ->.
Qed.

(** C8. A login whose credentials Django's [authenticate] rejects
    returns [False] without raising and leaves everything as it was: the
    database holds no new session, no cookie has been set, and the
    request has not been rebuilt. *)
Theorem login_rejected_changes_nothing {DB : Type} `{!Django DB}
    (self : DjangoAuthBackend) (w : World DB) (request : JsonRpcRequest)
    (username password : Value) :
  params_getitem (params request) "username" = Ok username →
  params_getitem (params request) "password" = Ok password →
  authenticate (db w) (py_str username) (py_str password) = None →
  login self w request = Ok (false, w, http_request request).
Proof.
  unfold login. intros -> ->. cbn [mbind result_bind except_params_errors].
  by intros ->.
Qed.

Lemma login_rejected_changes_nothing_witness :
  let w := mkWorld Sample.database [] in
  let request :=
    Sample.call "login"
      (VDict {[ "username" := VStr "alice"; "password" := VStr "wrong" ]}) in
  login Sample.backend w request = Ok (false, w, http_request request).
Proof.
  intros w request.
  apply (login_rejected_changes_nothing Sample.backend w request
           (VStr "alice") (VStr "wrong")); vm_compute; reflexivity.
Defined.

(** ** The generic ORM methods *)

Lemma lookups_of_falsy (p : Value) : truthy p = false → lookups_of p = Ok ∅.
Proof. unfold lookups_of, py_or. by intros ->. Qed.

(** Over any Django, a view or delete whose params are falsy is the
    store's filter, or filter-and-delete, with the empty lookup. *)
Lemma model_view_without_params {DB : Type} `{!Django DB}
    (d : DB) (request : JsonRpcRequest) (model : Model) :
  truthy (params request) = false →
  _model_view d request model
  = except_Exception_raise
      (objects ← objects_filter d model ∅; Ok (map dump_model_object objects))
      RpcInvalidParamsError.
Proof. intros Hp. unfold _model_view. by rewrite (lookups_of_falsy _ Hp). Qed.

Lemma model_delete_without_params {DB : Type} `{!Django DB}
    (d : DB) (request : JsonRpcRequest) (model : Model) :
  truthy (params request) = false →
  _model_delete d request model
  = d' ← except_Exception_raise (objects_filter_delete d model ∅)
                                RpcInvalidParamsError;
    Ok (true, d').
Proof. intros Hp. unfold _model_delete. by rewrite (lookups_of_falsy _ Hp). Qed.

Lemma filter_all {A} (f : A → bool) (l : list A) :
  (∀ x, f x = true) → List.filter f l = l.
Proof.
  intros Hf. induction l as [|x l IH]; simpl; [done|]. by rewrite Hf, IH.
Qed.

Lemma filter_none {A} (f : A → bool) (l : list A) :
  (∀ x, f x = false) → List.filter f l = [].
Proof.
  intros Hf. induction l as [|x l IH]; simpl; [done|]. by rewrite Hf, IH.
Qed.

Lemma row_matches_empty (o : ModelObject) : Tables.row_matches ∅ o = true.
Proof. unfold Tables.row_matches. apply bool_decide_eq_true_2, map_Forall_empty. Qed.

Lemma known_lookups_empty (t : Tables.Table) : Tables.known_lookups t ∅ = true.
Proof. unfold Tables.known_lookups. apply bool_decide_eq_true_2, map_Forall_empty. Qed.

(** View, add and delete turn every exception of the data store into
    [RpcInvalidParamsError]. *)
Lemma model_view_raises_only_invalid_params {DB : Type} `{!Django DB}
    (d : DB) (request : JsonRpcRequest) (model : Model) (e : exn) :
  _model_view d request model = Raise e → e = RpcInvalidParamsError.
Proof.
  unfold _model_view, lookups_of.
  destruct (py_or _ _); cbn [mbind result_bind]; try by intros [= <-].
  destruct (objects_filter _ _ _); cbn; by intros [= <-].
Qed.

Lemma model_delete_raises_only_invalid_params {DB : Type} `{!Django DB}
    (d : DB) (request : JsonRpcRequest) (model : Model) (e : exn) :
  _model_delete d request model = Raise e → e = RpcInvalidParamsError.
Proof.
  unfold _model_delete, lookups_of.
  destruct (py_or _ _); cbn [mbind result_bind]; try by intros [= <-].
  destruct (objects_filter_delete _ _ _); cbn; by intros [= <-].
Qed.

Lemma model_add_raises_only_invalid_params {DB : Type} `{!Django DB}
    (d : DB) (request : JsonRpcRequest) (model : Model) (e : exn) :
  _model_add d request model = Raise e → e = RpcInvalidParamsError.
Proof.
  unfold _model_add, lookups_of.
  destruct (py_or _ _); cbn [mbind result_bind]; try by intros [= <-].
  case_bool_decide; [by intros [= <-]|].
  destruct (objects_create _ _ _) as [[o d']|e']; cbn; by intros [= <-].
Qed.

(** Change does not: whatever [model.objects.get] raises, other than a
    [KeyError], leaves [_model_change] as it is. *)
Lemma model_change_propagates {DB : Type} `{!Django DB}
    (d : DB) (request : JsonRpcRequest) (model : Model)
    (dict : gmap string Value) (pk : Value) (e : exn) :
  params request = VDict dict →
  dict !! "pk" = Some pk →
  objects_get d model pk = Raise e →
  e ≠ KeyError →
  _model_change d request model = Raise e.
Proof.
  unfold _model_change, params_pop. intros -> -> .
  cbn [mbind result_bind]. intros -> He. unfold try_except.
  cbn [mbind result_bind]. by rewrite decide_False.
Qed.

(** C1. The change operation lets a data-store exception through: asked
    to change the record with primary key 9 of a table that has no such
    record, it raises the model's [DoesNotExist], not
    [RpcInvalidParamsError]. *)
Theorem model_change_leaks_DoesNotExist :
  _model_change Sample.database
    (Sample.call "db__django_project.change_item"
       (VDict {[ "pk" := VInt 9; "number" := VInt 5 ]}))
    "django_project.item"
  = Raise Model_DoesNotExist.
Proof. vm_compute. reflexivity. Qed.

(** C9. On the table-backed Django, params that are falsy ([None], an
    empty dict, an empty list) become the empty lookup, which every row
    matches: the view returns the dump of every row of the model's
    table, and the delete empties the table and returns [True]. *)
Theorem generic_view_delete_without_params (d : Tables.TableDB)
    (request : JsonRpcRequest) (model : Model) (t : Tables.Table) :
  truthy (params request) = false →
  Tables.model_tables d !! model = Some t →
  _model_view d request model = Ok (map dump_model_object (Tables.table_rows t))
  ∧ _model_delete d request model
    = Ok (true,
          Tables.set_table d model
            (Tables.mkTable (Tables.table_fields t) [] (Tables.next_pk t))).
Proof.
  intros Hp Ht.
  rewrite model_view_without_params, model_delete_without_params by done.
  cbn [objects_filter objects_filter_delete Tables.tables_django].
  unfold Tables.t_objects_filter, Tables.t_objects_filter_delete, Tables.with_table.
  rewrite Ht, known_lookups_empty.
  rewrite (filter_all _ _ row_matches_empty).
  rewrite filter_none; [done|].
  intros o. by rewrite row_matches_empty.
Qed.

Lemma generic_view_delete_without_params_witness :
  let request := Sample.call "db__django_project.delete_item" VNone in
  _model_view Sample.database request "django_project.item"
  = Ok (map dump_model_object (Tables.table_rows Sample.items))
  ∧ _model_delete Sample.database request "django_project.item"
    = Ok (true,
          Tables.set_table Sample.database "django_project.item"
            (Tables.mkTable (Tables.table_fields Sample.items) []
                            (Tables.next_pk Sample.items))).
Proof.
  intros request.
  apply (generic_view_delete_without_params Sample.database request
           "django_project.item" Sample.items); vm_compute; reflexivity.
Defined.

(** * Further properties of the backend *)

(** ** Identity resolution *)

(** X1. [get_user] never invents an identity: it returns a user other
    than the anonymous one exactly when the ["sessionid"] cookie is a
    non-empty key of a stored session whose decoded ["_auth_user_id"]
    is the primary key of that stored user. *)
Theorem get_user_returns_stored_user {DB : Type} `{!Django DB}
    (d : DB) (request : Request) (u : User) :
  u ≠ AnonymousUser →
  get_user d request = Ok u
  ↔ ∃ k session,
      cookies request !! "sessionid" = Some k
      ∧ k ≠ ""
      ∧ Session_objects_get d k = Ok session
      ∧ User_objects_get d (get_decoded session !! "_auth_user_id") = Ok u.
Proof.
  intros Hu. unfold get_user. split.
  - destruct (cookies request !! "sessionid") as [k|]; simpl;
      [|by intros [= <-]].
    destruct (String.eqb_spec k "") as [->|Hk]; simpl; [by intros [= <-]|].
    destruct (Session_objects_get d k) as [session|e] eqn:Hs; simpl.
    + destruct (User_objects_get d _) as [u'|e] eqn:Hus; simpl.
      * intros [= <-]. by exists k, session.
      * unfold try_except.
        destruct (decide (e = User_DoesNotExist)); simpl; [by intros [= <-]|].
        destruct (decide (e = Session_DoesNotExist)); simpl; [by intros [= <-]|].
        done.
    + destruct (decide (e = Session_DoesNotExist)); simpl; [by intros [= <-]|].
      done.
  - intros (k & session & -> & Hk & Hs & Hus). simpl.
    apply String.eqb_neq in Hk. rewrite Hk. simpl. rewrite Hs. simpl.
    by rewrite Hus.
Qed.

Lemma get_user_returns_stored_user_witness :
  get_user Sample.database
    (Sample.fresh_request Sample.registry {[ "sessionid" := "abc" ]})
  = Ok Sample.alice.
Proof.
  apply (get_user_returns_stored_user Sample.database
           (Sample.fresh_request Sample.registry {[ "sessionid" := "abc" ]})
           Sample.alice).
  - discriminate.
  - exists "abc", (mkSession "abc" {[ "_auth_user_id" := "1" ]}).
    split; [reflexivity|]. split; [discriminate|].
    split; vm_compute; reflexivity.
Defined.

(** X2. [get_user] catches the two [DoesNotExist] classes and nothing
    else: it raises [e] exactly when the session lookup raises an [e]
    other than [Session.DoesNotExist], or the user lookup raises an [e]
    that is neither [User.DoesNotExist] nor [Session.DoesNotExist]. *)
Theorem get_user_raises_iff {DB : Type} `{!Django DB}
    (d : DB) (request : Request) (e : exn) :
  get_user d request = Raise e
  ↔ ∃ k,
      cookies request !! "sessionid" = Some k
      ∧ k ≠ ""
      ∧ ((Session_objects_get d k = Raise e ∧ e ≠ Session_DoesNotExist)
         ∨ ∃ session,
             Session_objects_get d k = Ok session
             ∧ User_objects_get d (get_decoded session !! "_auth_user_id")
               = Raise e
             ∧ e ≠ User_DoesNotExist
             ∧ e ≠ Session_DoesNotExist).
Proof.
  unfold get_user. split.
  - destruct (cookies request !! "sessionid") as [k|]; simpl; [|done].
    destruct (String.eqb_spec k "") as [->|Hk]; simpl; [done|].
    destruct (Session_objects_get d k) as [session|e'] eqn:Hs; simpl.
    + destruct (User_objects_get d _) as [u'|e'] eqn:Hus; simpl; [done|].
      unfold try_except.
      destruct (decide (e' = User_DoesNotExist)); simpl; [done|].
      destruct (decide (e' = Session_DoesNotExist)); simpl; [done|].
      intros [= <-]. exists k. split; [done|]. split; [done|].
      right. by exists session.
    + destruct (decide (e' = Session_DoesNotExist)); simpl; [done|].
      intros [= <-]. exists k. split; [done|]. split; [done|]. by left.
  - intros (k & -> & Hk & Hcases). simpl.
    apply String.eqb_neq in Hk. rewrite Hk. simpl.
    destruct Hcases as [[Hs He] | (session & Hs & Hus & He1 & He2)].
    + rewrite Hs. simpl. by rewrite decide_False.
    + rewrite Hs. simpl. rewrite Hus. simpl.
      rewrite decide_False by done. simpl. by rewrite decide_False.
Qed.

Lemma get_user_raises_iff_witness :
  @get_user _ Outage.outage_django Outage.down
    (Sample.fresh_request Sample.registry {[ "sessionid" := "abc" ]})
  = Raise Outage.lost.
Proof.
  apply (proj2 (@get_user_raises_iff _ Outage.outage_django Outage.down
                  (Sample.fresh_request Sample.registry {[ "sessionid" := "abc" ]})
                  Outage.lost)).
  exists "abc". split; [reflexivity|]. split; [discriminate|].
  left. split; [reflexivity|discriminate].
Defined.

(** ** Authorization *)

Lemma forallb_elem_of {A} (f : A → bool) (l : list A) :
  forallb f l = true ↔ ∀ x, x ∈ l → f x = true.
Proof.
  rewrite forallb_forall. by setoid_rewrite list_elem_of_In.
Qed.

Lemma is_authorized_non_superuser_eq (request : Request) (m : PyCallable) :
  is_superuser (user request) = false →
  _is_authorized request m
  = negb (hasattr_login_required m
          && (negb (is_active (user request))
              || negb (_user_is_authenticated (user request))))
    && from_option (has_perms (user request)) true (getattr_permissions_required m)
    && from_option (λ ts, forallb (λ t, t (user request)) ts) true (getattr_tests m).
Proof.
  intros Hsu. unfold _is_authorized. rewrite Hsu. simpl.
  destruct (hasattr_login_required m && _); simpl; [done|].
  destruct (getattr_permissions_required m) as [perms|]; simpl.
  - destruct (has_perms (user request) perms); simpl; [|done].
    destruct (getattr_tests m); simpl; [apply run_tests_forallb|done].
  - destruct (getattr_tests m); simpl; [apply run_tests_forallb|done].
Qed.

(** X3. For an identity that is not a superuser the decision is the
    conjunction of the three checks: the method is allowed exactly when
    a login-required method finds the identity active and
    authenticated, every required permission is held, and every test
    accepts the identity. *)
Theorem is_authorized_non_superuser (request : Request) (m : PyCallable) :
  is_superuser (user request) = false →
  _is_authorized request m = true
  ↔ (hasattr_login_required m = true →
       is_active (user request) = true
       ∧ _user_is_authenticated (user request) = true)
    ∧ (∀ perms p,
         getattr_permissions_required m = Some perms → p ∈ perms →
         has_perm (user request) p = true)
    ∧ (∀ ts t,
         getattr_tests m = Some ts → t ∈ ts → t (user request) = true).
Proof.
  intros Hsu. rewrite is_authorized_non_superuser_eq by done.
  rewrite !andb_true_iff, negb_true_iff.
  split.
  - intros [[Hgate Hperms] Htests]. split; [|split].
    + intros Hl. rewrite Hl in Hgate. simpl in Hgate.
      apply orb_false_iff in Hgate as [Ha Hb].
      by apply negb_false_iff in Ha, Hb.
    + intros perms p Hm Hp. rewrite Hm in Hperms. simpl in Hperms.
      by apply (proj1 (forallb_elem_of _ _) Hperms).
    + intros ts t Hm Ht. rewrite Hm in Htests. simpl in Htests.
      by apply (proj1 (forallb_elem_of _ _) Htests t).
  - intros (Hgate & Hperms & Htests). split; [split|].
    + destruct (hasattr_login_required m); [|done].
      destruct Hgate as [-> ->]; done.
    + destruct (getattr_permissions_required m) as [perms|]; [|done].
      simpl. apply forallb_elem_of. intros p. by apply Hperms.
    + destruct (getattr_tests m) as [ts|]; [|done].
      simpl. apply forallb_elem_of. intros t. by apply Htests.
Qed.

Lemma is_authorized_non_superuser_witness :
  _is_authorized (set_user (Sample.fresh_request Sample.registry ∅) Sample.alice)
                 (Func Sample.restock) = false.
Proof.
  apply not_true_is_false. intros Hyes.
  apply (is_authorized_non_superuser
           (set_user (Sample.fresh_request Sample.registry ∅) Sample.alice)
           (Func Sample.restock)) in Hyes as (_ & Hperms & _).
  - specialize (Hperms ["shop.change_item"] "shop.change_item" eq_refl).
    assert ("shop.change_item" ∈ ["shop.change_item"]) as Hin by (by left).
    apply Hperms in Hin. vm_compute in Hin. discriminate Hin.
  - reflexivity.
Defined.

(** X4. Being a superuser never costs access: if a method is allowed to
    an identity, it is allowed to every superuser that is active and
    authenticated whenever that identity is. *)
Theorem superuser_keeps_access (request request' : Request) (m : PyCallable) :
  is_superuser (user request') = true →
  (is_active (user request) = true → is_active (user request') = true) →
  (_user_is_authenticated (user request) = true →
   _user_is_authenticated (user request') = true) →
  _is_authorized request m = true →
  _is_authorized request' m = true.
Proof.
  intros Hsu Hact Hauth. unfold _is_authorized. rewrite Hsu. simpl.
  destruct (hasattr_login_required m); simpl.
  - destruct (is_active (user request)); simpl; [|done].
    destruct (_user_is_authenticated (user request)); simpl; [|done].
    rewrite Hact, Hauth by done. simpl. intros _.
    destruct (getattr_permissions_required m), (getattr_tests m); done.
  - intros _. destruct (getattr_permissions_required m), (getattr_tests m); done.
Qed.

Lemma superuser_keeps_access_witness :
  _is_authorized (set_user (Sample.fresh_request Sample.registry ∅) Cases.admin)
                 (Func Sample.whoami) = true.
Proof.
  apply (superuser_keeps_access
           (set_user (Sample.fresh_request Sample.registry ∅) Sample.alice)
           (set_user (Sample.fresh_request Sample.registry ∅) Cases.admin)
           (Func Sample.whoami)); reflexivity.
Defined.

(** ** The rebuilt method map and topics *)

Section Loops.
Variable request : Request.

Local Abbreviation add_method :=
  (λ (acc : gmap string JsonRpcMethod) '(name, m),
     if _is_authorized request (method m) then <[name := m]> acc else acc).

Local Abbreviation add_topic :=
  (λ (acc : gset string) '(name, m),
     if _is_authorized request m then acc ∪ {[name]} else acc).

Lemma add_methods_notin (l : list (string * JsonRpcMethod)) ms n :
  n ∉ l.*1 → foldl add_method ms l !! n = ms !! n.
Proof.
  revert ms. induction l as [|[name m] l IH]; intros ms Hn; [done|].
  simpl in *. apply not_elem_of_cons in Hn as [Hne Hn].
  rewrite IH by done.
  destruct (_is_authorized request (method m)); [|done].
  by rewrite lookup_insert_ne.
Qed.

(** An entry of the map after the registry loop was there before, or is
    an authorized method of the registry under its own name. *)
Lemma add_methods_sound (l : list (string * JsonRpcMethod)) ms n x :
  foldl add_method ms l !! n = Some x →
  ms !! n = Some x
  ∨ ((n, x) ∈ l ∧ _is_authorized request (method x) = true).
Proof.
  revert ms. induction l as [|[name m] l IH]; intros ms Hx; [by left|].
  simpl in Hx. apply IH in Hx as [Hx | [Hin Hauth]].
  - destruct (_is_authorized request (method m)) eqn:Hm; [|by left].
    destruct (decide (name = n)) as [->|Hne].
    + rewrite lookup_insert_eq in Hx. injection Hx as <-.
      right. split; [by left|done].
    + rewrite lookup_insert_ne in Hx by done. by left.
  - right. split; [by right|done].
Qed.

(** With distinct names, as in a dictionary, each registered method is
    listed under its name when authorized and leaves the name alone
    when not. *)
Lemma add_methods_nodup (l : list (string * JsonRpcMethod)) ms name m :
  NoDup l.*1 → (name, m) ∈ l →
  foldl add_method ms l !! name
  = if _is_authorized request (method m) then Some m else ms !! name.
Proof.
  revert ms. induction l as [|[name' m'] l IH]; intros ms Hnd Hin.
  - by apply elem_of_nil in Hin.
  - simpl in Hnd. apply NoDup_cons in Hnd as [Hfresh Hnd].
    apply elem_of_cons in Hin as [[= <- <-] | Hin]; simpl.
    + rewrite add_methods_notin by done.
      destruct (_is_authorized request (method m)); [|done].
      apply lookup_insert_eq.
    + rewrite IH by done.
      destruct (_is_authorized request (method m)); [done|].
      destruct (_is_authorized request (method m')); [|done].
      rewrite lookup_insert_ne; [done|].
      intros ->. apply Hfresh. apply list_elem_of_fmap. by exists (name, m).
Qed.

Lemma add_topics_elem_of (l : list (string * PyCallable)) acc n :
  n ∈ foldl add_topic acc l
  ↔ n ∈ acc ∨ ∃ m, (n, m) ∈ l ∧ _is_authorized request m = true.
Proof.
  revert acc. induction l as [|[name m] l IH]; intros acc; simpl.
  - split; [by left|]. intros [?|(m & Hin & _)]; [done|].
    by apply elem_of_nil in Hin.
  - rewrite IH. split.
    + intros [Hacc | (m' & Hin & Hauth)].
      * destruct (_is_authorized request m) eqn:Hm; [|by left].
        apply elem_of_union in Hacc as [Hacc|Hn]; [by left|].
        apply elem_of_singleton in Hn as ->.
        right. exists m. split; [by left|done].
      * right. exists m'. split; [by right|done].
    + intros [Hacc | (m' & Hin & Hauth)].
      * left. destruct (_is_authorized request m); [|done].
        apply elem_of_union. by left.
      * apply elem_of_cons in Hin as [[= -> ->] | Hin].
        -- left. rewrite Hauth. apply elem_of_union. right.
           by apply elem_of_singleton.
        -- right. by exists m'.
Qed.

End Loops.

Lemma authorized_topics_elem_of (request : Request) (n : string) :
  n ∈ authorized_topics request
  ↔ ∃ m, (n, m) ∈ rpc_topics (rpc request) ∧ _is_authorized request m = true.
Proof.
  unfold authorized_topics. rewrite add_topics_elem_of.
  split; [intros [Hn|?]; [by apply not_elem_of_empty in Hn|done] | by right].
Qed.

(** A value the permission loop leaves in the map is the ORM handler or
    was there before. *)
Lemma generic_model_methods_values perms ms0 ms n x :
  generic_model_methods perms ms0 = Ok ms →
  ms !! n = Some x →
  (x = mkJsonRpcMethod self_handle_orm_call
   ∧ ∃ p, p ∈ perms ∧ n = "db__" ++ p)
  ∨ ms0 !! n = Some x.
Proof.
  revert ms0. induction perms as [|p perms IH]; intros ms0 Hloop Hx.
  - injection Hloop as <-. by right.
  - rewrite generic_model_methods_cons in Hloop.
    destruct (action_segment p) as [a|e]; [|done].
    cbn [mbind result_bind] in Hloop.
    destruct (IH _ Hloop Hx) as [(-> & q & Hq & ->) | Hbefore].
    + left. split; [done|]. exists q. split; [by right|done].
    + case_bool_decide; [|by right].
      destruct (decide ("db__" ++ p = n)) as [<-|Hne].
      * rewrite lookup_insert_eq in Hbefore. injection Hbefore as <-.
        left. split; [done|]. exists p. split; [by left|done].
      * rewrite lookup_insert_ne in Hbefore by done. by right.
Qed.

Lemma is_authorized_same_user (r1 r2 : Request) (m : PyCallable) :
  user r1 = user r2 → _is_authorized r1 m = _is_authorized r2 m.
Proof. unfold _is_authorized. by intros ->. Qed.

(** Where an entry of the rebuilt map comes from. *)
Lemma prepare_request_entry {DB : Type} `{!Django DB}
    (self : DjangoAuthBackend) (d : DB) (request request' : Request)
    (user_arg : option User) (n : string) (x : JsonRpcMethod) :
  prepare_request self d request user_arg = Ok request' →
  methods request' !! n = Some x →
  (n = "login" ∧ x = mkJsonRpcMethod self_login
   ∧ isinstance_AnonymousUser (user request') = true)
  ∨ (generic_orm_methods self = true
     ∧ x = mkJsonRpcMethod self_handle_orm_call
     ∧ ∃ p, p ∈ get_all_permissions (user request') ∧ n = "db__" ++ p)
  ∨ ((n, x) ∈ rpc_methods (rpc request')
     ∧ _is_authorized request' (method x) = true).
Proof.
  intros Hrun Hx.
  destruct (prepare_request_stages self d request request' user_arg Hrun)
    as (u & ms & _ & Hms & ->).
  cbn [methods user rpc] in *.
  unfold rpc_defined_methods in Hx.
  apply add_methods_sound in Hx as [Hx | [Hin Hauth]].
  - assert (ms !! n = Some x →
            django_auth_methods (set_user request u) ∅ !! n = Some x →
            n = "login" ∧ x = mkJsonRpcMethod self_login
            ∧ isinstance_AnonymousUser u = true) as Hbuiltin.
    { intros _. rewrite django_auth_methods_lookup. cbn [user set_user].
      destruct (isinstance_AnonymousUser u); simpl; [|done].
      case_bool_decide; [|done]. by intros [= <-]. }
    unfold generic_django_model_methods in Hms.
    destruct (generic_orm_methods self) eqn:Hgen.
    + destruct (generic_model_methods_values _ _ _ _ _ Hms Hx)
        as [(-> & p & Hp & ->) | Hbefore].
      * right. left. split; [done|]. split; [done|]. by exists p.
      * left. by apply Hbuiltin.
    + injection Hms as <-. left. by apply Hbuiltin.
  - right. right. split; [exact Hin|].
    by rewrite <- Hauth.
Qed.

(** X5. Every method of the rebuilt map is one the identity is
    authorized for: a method that [_is_authorized] denies to the
    request's user is bound under no name. *)
Theorem prepare_request_lists_only_authorized {DB : Type} `{!Django DB}
    (self : DjangoAuthBackend) (d : DB) (request request' : Request)
    (user_arg : option User) (n : string) (x : JsonRpcMethod) :
  prepare_request self d request user_arg = Ok request' →
  methods request' !! n = Some x →
  _is_authorized request' (method x) = true.
Proof.
  intros Hrun Hx.
  destruct (prepare_request_entry self d request request' user_arg n x Hrun Hx)
    as [(_ & -> & _) | [(_ & -> & _) | [_ Hauth]]]; done.
Qed.

Lemma prepare_request_lists_only_authorized_witness :
  ∃ request',
    prepare_request Sample.backend Sample.database
      (Sample.fresh_request Sample.registry ∅) None = Ok request'
    ∧ _is_authorized request' (Func Sample.ping) = true.
Proof.
  eexists.
  assert (prepare_request Sample.backend Sample.database
            (Sample.fresh_request Sample.registry ∅) None = Ok _) as Hrun
    by (vm_compute; reflexivity).
  split; [exact Hrun|].
  apply (prepare_request_lists_only_authorized _ _ _ _ _ "ping"
           (mkJsonRpcMethod (Func Sample.ping)) Hrun).
  vm_compute. reflexivity.
Defined.

(** X6. The rebuilt map holds nothing else: each entry is the built-in
    login method under ["login"] for an anonymous identity, the ORM
    handler under ["db__<permission>"] for a permission of the identity
    when the generic methods are on, or a method of the registry under
    its registered name. *)
Theorem prepare_request_entries_accounted {DB : Type} `{!Django DB}
    (self : DjangoAuthBackend) (d : DB) (request request' : Request)
    (user_arg : option User) (n : string) (x : JsonRpcMethod) :
  prepare_request self d request user_arg = Ok request' →
  methods request' !! n = Some x →
  (n = "login" ∧ x = mkJsonRpcMethod self_login
   ∧ isinstance_AnonymousUser (user request') = true)
  ∨ (generic_orm_methods self = true
     ∧ x = mkJsonRpcMethod self_handle_orm_call
     ∧ ∃ p, p ∈ get_all_permissions (user request') ∧ n = "db__" ++ p)
  ∨ (n, x) ∈ rpc_methods (rpc request').
Proof.
  intros Hrun Hx.
  destruct (prepare_request_entry self d request request' user_arg n x Hrun Hx)
    as [Hlogin | [Horm | [Hreg _]]]; auto.
Qed.

Lemma prepare_request_entries_accounted_witness :
  ∃ request',
    prepare_request Cases.plain_backend Sample.database
      (Sample.fresh_request Sample.registry ∅) (Some Sample.alice) = Ok request'
    ∧ ("ping", mkJsonRpcMethod (Func Sample.ping)) ∈ rpc_methods (rpc request').
Proof.
  eexists.
  assert (prepare_request Cases.plain_backend Sample.database
            (Sample.fresh_request Sample.registry ∅) (Some Sample.alice)
          = Ok _) as Hrun by (vm_compute; reflexivity).
  split; [exact Hrun|].
  destruct (prepare_request_entries_accounted _ _ _ _ _
              "ping" (mkJsonRpcMethod (Func Sample.ping)) Hrun)
    as [(Hn & _) | [(Hgen & _) | Hreg]].
  - vm_compute. reflexivity.
  - discriminate Hn.
  - discriminate Hgen.
  - exact Hreg.
Defined.

(** X7. After a rebuild a topic is allowed exactly when the registry
    holds it with a callable the identity is authorized for, and it is
    subscribed exactly when it is allowed and was subscribed before. *)
Theorem prepare_request_topics_iff {DB : Type} `{!Django DB}
    (self : DjangoAuthBackend) (d : DB) (request request' : Request)
    (user_arg : option User) (n : string) :
  prepare_request self d request user_arg = Ok request' →
  (n ∈ topics request'
   ↔ ∃ m, (n, m) ∈ rpc_topics (rpc request')
          ∧ _is_authorized request' m = true)
  ∧ (n ∈ default ∅ (subscriptions request')
     ↔ n ∈ topics request' ∧ n ∈ default ∅ (subscriptions request)).
Proof.
  intros Hrun.
  destruct (prepare_request_stages self d request request' user_arg Hrun)
    as (u & ms & _ & _ & ->).
  cbn [topics subscriptions rpc]. split.
  - rewrite authorized_topics_elem_of. cbn [rpc set_user].
    split; intros (m & Hin & Hauth); exists m; split; done.
  - simpl. apply elem_of_intersection.
Qed.

Lemma prepare_request_topics_iff_witness :
  ∃ request',
    prepare_request Sample.backend Sample.database
      (mkRequest ∅ Sample.registry AnonymousUser ∅ ∅ (Some {[ "stock" ]})) None
    = Ok request'
    ∧ "news" ∈ topics request'.
Proof.
  eexists.
  assert (prepare_request Sample.backend Sample.database
            (mkRequest ∅ Sample.registry AnonymousUser ∅ ∅ (Some {[ "stock" ]}))
            None = Ok _) as Hrun by (vm_compute; reflexivity).
  split; [exact Hrun|].
  apply (proj1 (prepare_request_topics_iff _ _ _ _ _ "news" Hrun)).
  exists PyNone. split.
  - left.
  - vm_compute. reflexivity.
Defined.

(** X8. With the registered names distinct, as the keys of a
    dictionary are, the rebuilt map lists every registered method the
    identity is authorized for under its registered name; a registered
    method the identity is not authorized for is missing, unless its
    name is ["login"] or starts with ["db__"]. *)
Theorem prepare_request_registry_methods {DB : Type} `{!Django DB}
    (self : DjangoAuthBackend) (d : DB) (request request' : Request)
    (user_arg : option User) (name : string) (m : JsonRpcMethod) :
  NoDup (rpc_methods (rpc request)).*1 →
  (name, m) ∈ rpc_methods (rpc request) →
  prepare_request self d request user_arg = Ok request' →
  (_is_authorized request' (method m) = true →
   methods request' !! name = Some m)
  ∧ (_is_authorized request' (method m) = false →
     name ≠ "login" → (∀ p, name ≠ "db__" ++ p) →
     methods request' !! name = None).
Proof.
  intros Hnd Hin Hrun.
  destruct (prepare_request_stages self d request request' user_arg Hrun)
    as (u & ms & _ & Hms & ->).
  cbn [methods]. unfold rpc_defined_methods.
  rewrite (add_methods_nodup _ _ _ name m Hnd Hin).
  rewrite (is_authorized_same_user _ (set_user request u)) by done.
  split; [by intros ->|]. intros -> Hlogin Hdb.
  destruct (ms !! name) as [x|] eqn:Hx; [|done]. exfalso.
  unfold generic_django_model_methods in Hms.
  assert (django_auth_methods (set_user request u) ∅ !! name = None) as Hnone.
  { rewrite django_auth_methods_lookup.
    rewrite (bool_decide_eq_false_2 (name = "login")) by done.
    by rewrite andb_false_r. }
  destruct (generic_orm_methods self).
  - destruct (generic_model_methods_values _ _ _ _ _ Hms Hx)
      as [(_ & p & _ & ->) | Hbefore]; [by apply (Hdb p)|congruence].
  - injection Hms as <-. congruence.
Qed.

Lemma prepare_request_registry_methods_witness :
  ∃ request',
    prepare_request Sample.backend Sample.database
      (Sample.fresh_request Sample.registry ∅) (Some Sample.alice) = Ok request'
    ∧ methods request' !! "whoami" = Some (mkJsonRpcMethod (Func Sample.whoami))
    ∧ methods request' !! "restock" = None.
Proof.
  eexists.
  assert (prepare_request Sample.backend Sample.database
            (Sample.fresh_request Sample.registry ∅) (Some Sample.alice)
          = Ok _) as Hrun by (vm_compute; reflexivity).
  assert (NoDup (rpc_methods (rpc (Sample.fresh_request Sample.registry ∅))).*1)
    as Hnd by (apply (bool_decide_unpack _); vm_compute; exact I).
  assert (("whoami", mkJsonRpcMethod (Func Sample.whoami))
            ∈ rpc_methods (rpc (Sample.fresh_request Sample.registry ∅)))
    as Hwhoami by (right; left).
  assert (("restock", mkJsonRpcMethod (Func Sample.restock))
            ∈ rpc_methods (rpc (Sample.fresh_request Sample.registry ∅)))
    as Hrestock by (right; right; left).
  split; [exact Hrun|]. split.
  - apply (proj1 (prepare_request_registry_methods _ _ _ _ _ _ _
                    Hnd Hwhoami Hrun)).
    vm_compute. reflexivity.
  - apply (proj2 (prepare_request_registry_methods _ _ _ _ _ _ _
                    Hnd Hrestock Hrun)).
    + vm_compute. reflexivity.
    + discriminate.
    + intros p. rewrite !append_String. discriminate.
Defined.

(** X9. The rebuild is wholesale: it reads the request's cookies,
    registry and previous subscriptions, and nothing of the user,
    method map and topics an earlier rebuild left on the request. *)
Theorem prepare_request_wholesale {DB : Type} `{!Django DB}
    (self : DjangoAuthBackend) (d : DB) (r1 r2 : Request)
    (user_arg : option User) :
  cookies r1 = cookies r2 →
  rpc r1 = rpc r2 →
  subscriptions r1 = subscriptions r2 →
  prepare_request self d r1 user_arg = prepare_request self d r2 user_arg.
Proof.
  intros Hc Hr Hs. unfold prepare_request.
  assert (get_user d r1 = get_user d r2) as Hget
    by (unfold get_user; by rewrite Hc).
  rewrite Hget.
  destruct (match user_arg with Some _ => _ | None => _ end) as [u|e]; [|done].
  cbn [mbind result_bind].
  assert (generic_django_model_methods self (set_user r1 u)
            (django_auth_methods (set_user r1 u) ∅)
          = generic_django_model_methods self (set_user r2 u)
              (django_auth_methods (set_user r2 u) ∅)) as -> by done.
  destruct (generic_django_model_methods _ _ _) as [ms|e]; [|done].
  cbn [mbind result_bind cookies rpc user subscriptions set_user].
  rewrite (rpc_defined_methods_ext (set_user r1 u) (set_user r2 u)) by done.
  rewrite (authorized_topics_ext (set_user r1 u) (set_user r2 u)) by done.
  by rewrite Hc, Hr, Hs.
Qed.

Lemma prepare_request_wholesale_witness :
  prepare_request Sample.backend Sample.database
    (mkRequest ∅ Sample.registry Cases.admin
               {[ "restock" := mkJsonRpcMethod (Func Sample.restock) ]}
               {[ "stock" ]} None) None
  = prepare_request Sample.backend Sample.database
      (Sample.fresh_request Sample.registry ∅) None.
Proof.
  apply (prepare_request_wholesale Sample.backend Sample.database
           (mkRequest ∅ Sample.registry Cases.admin
               {[ "restock" := mkJsonRpcMethod (Func Sample.restock) ]}
               {[ "stock" ]} None)
           (Sample.fresh_request Sample.registry ∅) None); reflexivity.
Defined.

(** X10. A rebuild never adds a subscription: what is subscribed after
    it was subscribed before it, and a request that had no
    subscriptions attribute leaves with the empty set. *)
Theorem prepare_request_subscriptions_shrink {DB : Type} `{!Django DB}
    (self : DjangoAuthBackend) (d : DB) (request request' : Request)
    (user_arg : option User) :
  prepare_request self d request user_arg = Ok request' →
  default ∅ (subscriptions request') ⊆ default ∅ (subscriptions request)
  ∧ (subscriptions request = None → subscriptions request' = Some ∅).
Proof.
  intros Hrun.
  destruct (prepare_request_stages self d request request' user_arg Hrun)
    as (u & ms & _ & _ & ->).
  cbn [subscriptions]. split.
  - simpl. intros n Hn. by apply elem_of_intersection in Hn as [_ ?].
  - intros ->. simpl. f_equal. apply (right_absorb_L ∅ (∩)).
Qed.

Lemma prepare_request_subscriptions_shrink_witness :
  ∃ request',
    prepare_request Sample.backend Sample.database
      (Sample.fresh_request Sample.registry ∅) None = Ok request'
    ∧ subscriptions request' = Some ∅.
Proof.
  eexists.
  assert (prepare_request Sample.backend Sample.database
            (Sample.fresh_request Sample.registry ∅) None = Ok _) as Hrun
    by (vm_compute; reflexivity).
  split; [exact Hrun|].
  apply (proj2 (prepare_request_subscriptions_shrink _ _ _ _ _ Hrun)).
  reflexivity.
Defined.

(** ** Permission names without a dot *)

Lemma split_single_no_sep (a : ascii) (s : string) :
  char_in a s = false → split (String a "") s = [s].
Proof.
  induction s as [|c s IH]; [done|]. cbn [char_in]. intros Hs.
  apply orb_false_iff in Hs as [Hc Hs].
  by rewrite split_single_cons, Hc, IH.
Qed.

Lemma split_single_two (a : ascii) (s : string) :
  char_in a s = true → ∃ h1 h2 t, split (String a "") s = h1 :: h2 :: t.
Proof.
  induction s as [|c s IH]; [done|]. cbn [char_in]. intros Hs.
  rewrite split_single_cons. destruct (Ascii.eqb c a); simpl in Hs.
  - destruct (split_nonempty (String a "") s 0) as (h & t & Hsplit).
    exists "", h, t. unfold split. by rewrite Hsplit.
  - destruct (IH Hs) as (h1 & h2 & t & ->). by exists (String c h1), h2, t.
Qed.

(** The action segment exists exactly for the names that hold a dot;
    for the others the index is out of range. *)
Lemma action_segment_dot (p : string) :
  (char_in "." p = true → returns (action_segment p))
  ∧ (char_in "." p = false → action_segment p = Raise IndexError).
Proof.
  unfold action_segment. split; intros Hp.
  - destruct (split_single_two "." p Hp) as (h1 & h2 & t & ->). simpl.
    destruct (split_nonempty "_" h2 0) as (h & t' & Hsplit).
    unfold split. rewrite Hsplit. by exists h.
  - by rewrite split_single_no_sep.
Qed.

Lemma generic_model_methods_no_dot perms ms p :
  p ∈ perms → char_in "." p = false →
  generic_model_methods perms ms = Raise IndexError.
Proof.
  revert ms. induction perms as [|q perms IH]; intros ms Hp Hdot.
  - by apply elem_of_nil in Hp.
  - rewrite generic_model_methods_cons.
    destruct (char_in "." q) eqn:Hq.
    + destruct (proj1 (action_segment_dot q) Hq) as [a ->].
      cbn [mbind result_bind]. apply IH; [|done].
      apply elem_of_cons in Hp as [->|Hp]; [congruence|done].
    + by rewrite (proj2 (action_segment_dot q) Hq).
Qed.

(** X11. With the generic ORM methods on and the identity resolved, the
    rebuild returns when every permission name of the identity holds a
    dot, and raises [IndexError] as soon as one does not. *)
Theorem prepare_request_permission_without_dot {DB : Type} `{!Django DB}
    (self : DjangoAuthBackend) (d : DB) (request : Request)
    (user_arg : option User) (u : User) :
  generic_orm_methods self = true →
  match user_arg with Some u => Ok u | None => get_user d request end = Ok u →
  ((∀ p, p ∈ get_all_permissions u → char_in "." p = true) →
   returns (prepare_request self d request user_arg))
  ∧ (∀ p, p ∈ get_all_permissions u → char_in "." p = false →
     prepare_request self d request user_arg = Raise IndexError).
Proof.
  intros Hgen Hu. split.
  - intros Hall.
    assert (returns (generic_django_model_methods self (set_user request u)
                       (django_auth_methods (set_user request u) ∅))) as [ms Hms].
    { unfold generic_django_model_methods. rewrite Hgen.
      apply generic_model_methods_returns, Forall_forall.
      intros p Hp. apply action_segment_dot. by apply Hall. }
    eexists. by apply prepare_request_run.
  - intros p Hp Hdot. unfold prepare_request. rewrite Hu.
    cbn [mbind result_bind]. unfold generic_django_model_methods.
    rewrite Hgen. cbn [user set_user].
    by rewrite (generic_model_methods_no_dot _ _ p).
Qed.

Lemma prepare_request_permission_without_dot_witness :
  prepare_request Sample.backend Sample.database
    (Sample.fresh_request Sample.registry ∅) (Some Cases.carol)
  = Raise IndexError.
Proof.
  apply (proj2 (prepare_request_permission_without_dot
                  Sample.backend Sample.database
                  (Sample.fresh_request Sample.registry ∅) (Some Cases.carol)
                  Cases.carol eq_refl eq_refl) "staff").
  - right. left.
  - reflexivity.
Defined.

(** ** Superusers *)

Lemma is_authorized_active_superuser (request : Request) (m : PyCallable) :
  is_active (user request) = true →
  _user_is_authenticated (user request) = true →
  is_superuser (user request) = true →
  _is_authorized request m = true.
Proof.
  unfold _is_authorized. intros -> -> ->. simpl.
  rewrite andb_false_r.
  destruct (getattr_permissions_required m), (getattr_tests m); done.
Qed.

(** X12. A rebuild for an active, authenticated superuser allows every
    registered topic and, the registered names being distinct, lists
    every registered method under its name. *)
Theorem prepare_request_superuser_sees_all {DB : Type} `{!Django DB}
    (self : DjangoAuthBackend) (d : DB) (request request' : Request)
    (user_arg : option User) :
  prepare_request self d request user_arg = Ok request' →
  is_active (user request') = true →
  _user_is_authenticated (user request') = true →
  is_superuser (user request') = true →
  (∀ n, n ∈ topics request' ↔ n ∈ (rpc_topics (rpc request)).*1)
  ∧ (NoDup (rpc_methods (rpc request)).*1 →
     ∀ name m, (name, m) ∈ rpc_methods (rpc request) →
               methods request' !! name = Some m).
Proof.
  intros Hrun.
  destruct (prepare_request_stages self d request request' user_arg Hrun)
    as (u & ms & _ & _ & ->).
  cbn [user topics methods]. intros Hact Hauth Hsu.
  assert (∀ m, _is_authorized (set_user request u) m = true) as Hall
    by (intros m; by apply is_authorized_active_superuser).
  split.
  - intros n. rewrite authorized_topics_elem_of. cbn [rpc set_user].
    rewrite list_elem_of_fmap. split.
    + intros (m & Hin & _). by exists (n, m).
    + intros ([n' m] & -> & Hin). exists m. split; [done|apply Hall].
  - intros Hnd name m Hin. unfold rpc_defined_methods.
    rewrite (add_methods_nodup _ _ _ name m) by done. by rewrite Hall.
Qed.

Lemma prepare_request_superuser_sees_all_witness :
  ∃ request',
    prepare_request Sample.backend Sample.database
      (Sample.fresh_request Sample.registry ∅) (Some Cases.admin) = Ok request'
    ∧ "stock" ∈ topics request'
    ∧ methods request' !! "restock" = Some (mkJsonRpcMethod (Func Sample.restock)).
Proof.
  eexists.
  assert (prepare_request Sample.backend Sample.database
            (Sample.fresh_request Sample.registry ∅) (Some Cases.admin)
          = Ok _) as Hrun by (vm_compute; reflexivity).
  destruct (prepare_request_superuser_sees_all _ _ _ _ _ Hrun
              eq_refl eq_refl eq_refl) as [Htopics Hmethods].
  split; [exact Hrun|]. split.
  - apply Htopics. right. left.
  - apply Hmethods.
    + apply (bool_decide_unpack _). vm_compute. exact I.
    + right. right. left.
Defined.

(** ** Login *)

Lemma generic_model_methods_raise_inv perms ms e :
  generic_model_methods perms ms = Raise e → e = IndexError.
Proof.
  revert ms. induction perms as [|p perms IH]; intros ms; [done|].
  rewrite generic_model_methods_cons.
  destruct (char_in "." p) eqn:Hp.
  - destruct (proj1 (action_segment_dot p) Hp) as [a ->]. apply IH.
  - rewrite (proj2 (action_segment_dot p) Hp). by intros [= <-].
Qed.

(** A rebuild for a given user raises nothing but [IndexError]. *)
Lemma prepare_request_given_user_raise {DB : Type} `{!Django DB}
    (self : DjangoAuthBackend) (d : DB) (request : Request) (u : User) (e : exn) :
  prepare_request self d request (Some u) = Raise e → e = IndexError.
Proof.
  unfold prepare_request. cbn [mbind result_bind].
  unfold generic_django_model_methods.
  destruct (generic_orm_methods self); [|done].
  destruct (generic_model_methods _ _) as [ms|e'] eqn:Hloop; [done|].
  cbn [mbind result_bind]. intros [= <-].
  by apply generic_model_methods_raise_inv in Hloop.
Qed.

Lemma params_getitem_not_dict (p : Value) (key : string) (v : Value) :
  params_getitem p key = Ok v → ∃ dict, p = VDict dict ∧ dict !! key = Some v.
Proof.
  unfold params_getitem. destruct p as [| | | | |dict]; try done.
  destruct (dict !! key) as [v'|] eqn:Hk; [|done].
  intros [= <-]. by exists dict.
Qed.

(** X13. [login] answers [RpcInvalidParamsError] exactly when the params
    are not a dict holding both ["username"] and ["password"]; whatever
    the two values are, they are accepted and passed on as strings. *)
Theorem login_invalid_params_iff {DB : Type} `{!Django DB}
    (self : DjangoAuthBackend) (w : World DB) (request : JsonRpcRequest) :
  login self w request = Raise RpcInvalidParamsError
  ↔ ¬ ∃ dict, params request = VDict dict
              ∧ is_Some (dict !! "username")
              ∧ is_Some (dict !! "password").
Proof.
  unfold login, params_getitem. split.
  - intros Hraise (dict & Hp & [u Hu] & [p Hp']). rewrite Hp, Hu, Hp' in Hraise.
    cbn [mbind result_bind except_params_errors] in Hraise.
    destruct (authenticate _ _ _) as [usr|]; [|done].
    destruct (django_login_save _ _) as [key d'].
    destruct (prepare_request _ _ _ _) as [http|e] eqn:Hrun; [done|].
    apply prepare_request_given_user_raise in Hrun as ->. done.
  - intros Hnot. destruct (params request) as [| | | | |dict]; try done.
    destruct (dict !! "username") as [u|] eqn:Hu; [|done].
    destruct (dict !! "password") as [p|] eqn:Hp; [|done].
    destruct Hnot. exists dict. by rewrite Hu, Hp.
Qed.

Lemma login_invalid_params_iff_witness :
  login Sample.backend (mkWorld Sample.database [])
        (Sample.call "login" (VList [VStr "alice"; VStr "correct"]))
  = Raise RpcInvalidParamsError.
Proof.
  apply (proj2 (login_invalid_params_iff Sample.backend
                  (mkWorld Sample.database [])
                  (Sample.call "login" (VList [VStr "alice"; VStr "correct"])))).
  intros (dict & Hdict & _). discriminate Hdict.
Defined.

(** X14. What a returning [login] has done can be read off its
    answer.  On [False] the database, the cookies and the request are
    untouched.  On [True] the credentials were accepted, the database is
    the one holding the new session, exactly one cookie was added, with
    the session key as value, path ["/"], no max-age and no expiry, and
    the request was rebuilt for the authenticated user. *)
Theorem login_effects {DB : Type} `{!Django DB}
    (self : DjangoAuthBackend) (w w' : World DB) (request : JsonRpcRequest)
    (b : bool) (http : Request) :
  login self w request = Ok (b, w', http) →
  if b then
    ∃ username password u key,
      params_getitem (params request) "username" = Ok username
      ∧ params_getitem (params request) "password" = Ok password
      ∧ authenticate (db w) (py_str username) (py_str password) = Some u
      ∧ django_login_save (db w) u = (key, db w')
      ∧ ws_cookies w'
        = (ws_cookies w
           ++ [mkCookie (SESSION_COOKIE_NAME (settings self)) key "/" None
                 (SESSION_COOKIE_DOMAIN (settings self))
                 (if SESSION_COOKIE_SECURE (settings self) then Some true else None)
                 None])%list
      ∧ prepare_request self (db w') (http_request request) (Some u) = Ok http
      ∧ user http = u
  else w' = w ∧ http = http_request request.
Proof.
  unfold login.
  destruct (params_getitem (params request) "username") as [username|e] eqn:Hu;
    [|by destruct e].
  destruct (params_getitem (params request) "password") as [password|e] eqn:Hp;
    [|by destruct e].
  cbn [mbind result_bind except_params_errors].
  destruct (authenticate _ _ _) as [u|] eqn:Hauth.
  - destruct (django_login_save _ _) as [key d'] eqn:Hsave.
    cbn [db]. destruct (prepare_request _ _ _ _) as [http'|e] eqn:Hrun; [|done].
    cbn [mbind result_bind]. intros [= <- <- <-].
    exists username, password, u, key. cbn [db ws_cookies].
    repeat (split; [done|]).
    destruct (prepare_request_stages _ _ _ _ _ Hrun) as (u' & ms & Hu' & _ & ->).
    by injection Hu' as ->.
  - by intros [= <- <- <-].
Qed.

Lemma login_effects_witness :
  ∃ w' http,
    login Sample.backend (mkWorld Sample.database [])
      (Sample.call "login"
         (VDict {[ "username" := VStr "alice"; "password" := VStr "correct" ]}))
    = Ok (true, w', http)
    ∧ user http = Sample.alice
    ∧ length (ws_cookies w') = 1.
Proof.
  eexists _, _.
  assert (login Sample.backend (mkWorld Sample.database [])
            (Sample.call "login"
               (VDict {[ "username" := VStr "alice"; "password" := VStr "correct" ]}))
          = Ok (true, _, _)) as Hlogin by (vm_compute; reflexivity).
  split; [exact Hlogin|].
  destruct (login_effects _ _ _ _ _ _ Hlogin)
    as (username & password & u & key & Hu & Hp & Hauth & _ & Hcookies & _ & Huser).
  split.
  - rewrite Huser. vm_compute in Hu, Hp. injection Hu as <-. injection Hp as <-.
    vm_compute in Hauth. by injection Hauth as <-.
  - rewrite Hcookies. reflexivity.
Defined.

(** X15. [login] names the cookie after [settings.SESSION_COOKIE_NAME],
    [get_user] reads the cookie called ["sessionid"].  Under any other
    cookie name, a client that sends back exactly the cookie a
    successful login has set is resolved as anonymous. *)
Theorem login_cookie_name_mismatch {DB : Type} `{!Django DB}
    (self : DjangoAuthBackend) (w w' : World DB) (request : JsonRpcRequest)
    (http next : Request) (c : Cookie) :
  SESSION_COOKIE_NAME (settings self) ≠ "sessionid" →
  login self w request = Ok (true, w', http) →
  last (ws_cookies w') = Some c →
  cookies next = {[ cookie_name c := cookie_value c ]} →
  get_user (db w') next = Ok AnonymousUser.
Proof.
  intros Hname Hlogin Hlast Hnext.
  assert (cookie_name c = SESSION_COOKIE_NAME (settings self)) as Hc.
  { unfold login in Hlogin.
    destruct (except_params_errors _) as [[username password]|e]; [|done].
    cbn [mbind result_bind] in Hlogin.
    destruct (authenticate _ _ _) as [u|]; [|done].
    destruct (django_login_save _ _) as [key d'].
    destruct (prepare_request _ _ _ _) as [http'|e]; [|done].
    cbn [mbind result_bind] in Hlogin. injection Hlogin as <- <-.
    cbn [ws_cookies] in Hlast. rewrite last_snoc in Hlast.
    by injection Hlast as <-. }
  unfold get_user. rewrite Hnext, lookup_singleton_ne by congruence. done.
Qed.

Lemma login_cookie_name_mismatch_witness :
  ∃ w' http c,
    login Cases.renamed_backend (mkWorld Sample.database [])
      (Sample.call "login"
         (VDict {[ "username" := VStr "alice"; "password" := VStr "correct" ]}))
    = Ok (true, w', http)
    ∧ last (ws_cookies w') = Some c
    ∧ get_user (db w')
        (Sample.fresh_request Sample.registry {[ cookie_name c := cookie_value c ]})
      = Ok AnonymousUser.
Proof.
  eexists _, _, _.
  assert (login Cases.renamed_backend (mkWorld Sample.database [])
            (Sample.call "login"
               (VDict {[ "username" := VStr "alice"; "password" := VStr "correct" ]}))
          = Ok (true, _, _)) as Hlogin by (vm_compute; reflexivity).
  split; [exact Hlogin|]. split; [vm_compute; reflexivity|].
  eapply (login_cookie_name_mismatch Cases.renamed_backend _ _ _ _ _ _
            ltac:(discriminate) Hlogin).
  - vm_compute. reflexivity.
  - reflexivity.
Defined.

(** X16. On the table-backed Django, with the session cookie called
    ["sessionid"], login and identity resolution fit together: a request
    that carries the cookie a successful login has set resolves to the
    user that logged in, provided the user is stored under its own
    primary key. *)
Theorem login_then_get_user (self : DjangoAuthBackend)
    (w w' : World Tables.TableDB) (request : JsonRpcRequest)
    (http next : Request) (c : Cookie) :
  SESSION_COOKIE_NAME (settings self) = "sessionid" →
  login self w request = Ok (true, w', http) →
  last (ws_cookies w') = Some c →
  cookie_value c ≠ "" →
  cookies next = {[ cookie_name c := cookie_value c ]} →
  Tables.user_table (db w) !! default "" (pk (user http)) = Some (user http) →
  get_user (db w') next = Ok (user http).
Proof.
  intros Hname Hlogin Hlast Hvalue Hnext Hstored.
  unfold login in Hlogin.
  destruct (except_params_errors _) as [[username password]|e]; [|done].
  cbn [mbind result_bind] in Hlogin.
  destruct (authenticate _ _ _) as [u|]; [|done].
  cbn [django_login_save Tables.tables_django] in Hlogin.
  unfold Tables.t_django_login_save in Hlogin. cbn [db] in Hlogin.
  destruct (prepare_request _ _ _ _) as [http'|e] eqn:Hrun; [|done].
  cbn [mbind result_bind] in Hlogin. injection Hlogin as <- <-.
  destruct (prepare_request_stages _ _ _ _ _ Hrun) as (u' & ms & Hu' & _ & ->).
  injection Hu' as <-. cbn [user] in *.
  cbn [ws_cookies] in Hlast. rewrite last_snoc in Hlast. injection Hlast as <-.
  cbn [cookie_name cookie_value session_cookie] in *.
  rewrite Hname in Hnext.
  unfold get_user. rewrite Hnext, lookup_singleton_eq. cbn [from_option]. unfold id.
  apply String.eqb_neq in Hvalue. rewrite Hvalue. cbn [negb].
  cbn [Session_objects_get User_objects_get Tables.tables_django db].
  unfold Tables.t_Session_objects_get. cbn [Tables.session_table].
  rewrite lookup_insert_eq. cbn [mbind result_bind get_decoded].
  rewrite lookup_singleton_eq.
  unfold Tables.t_User_objects_get. simpl. unfold id in Hstored.
  by rewrite Hstored.
Qed.

Lemma login_then_get_user_witness :
  ∃ w' http c,
    login Sample.backend (mkWorld Sample.database [])
      (Sample.call "login"
         (VDict {[ "username" := VStr "alice"; "password" := VStr "correct" ]}))
    = Ok (true, w', http)
    ∧ last (ws_cookies w') = Some c
    ∧ get_user (db w')
        (Sample.fresh_request Sample.registry {[ cookie_name c := cookie_value c ]})
      = Ok Sample.alice.
Proof.
  eexists _, _, _.
  assert (login Sample.backend (mkWorld Sample.database [])
            (Sample.call "login"
               (VDict {[ "username" := VStr "alice"; "password" := VStr "correct" ]}))
          = Ok (true, _, _)) as Hlogin by (vm_compute; reflexivity).
  split; [exact Hlogin|]. split; [vm_compute; reflexivity|].
  eapply (login_then_get_user Sample.backend _ _ _ _ _ _ eq_refl Hlogin).
  - vm_compute. reflexivity.
  - discriminate.
  - reflexivity.
  - vm_compute. reflexivity.
Defined.

(** ** The generic ORM methods, at their edges *)

(** X17. View, add and delete let no exception but
    [RpcInvalidParamsError] out, whatever the data store raises. *)
Theorem generic_methods_raise_only_invalid_params {DB : Type} `{!Django DB}
    (d : DB) (request : JsonRpcRequest) (model : Model) (e : exn) :
  (_model_view d request model = Raise e → e = RpcInvalidParamsError)
  ∧ (_model_add d request model = Raise e → e = RpcInvalidParamsError)
  ∧ (_model_delete d request model = Raise e → e = RpcInvalidParamsError).
Proof.
  split; [|split].
  - apply model_view_raises_only_invalid_params.
  - apply model_add_raises_only_invalid_params.
  - apply model_delete_raises_only_invalid_params.
Qed.

Lemma generic_methods_raise_only_invalid_params_witness :
  @_model_view _ Outage.outage_django Outage.down
    (Sample.call "db__django_project.view_item" VNone) "django_project.item"
  = Raise RpcInvalidParamsError.
Proof.
  destruct (@_model_view _ Outage.outage_django Outage.down
              (Sample.call "db__django_project.view_item" VNone)
              "django_project.item") as [rows|e] eqn:Hview.
  - vm_compute in Hview. discriminate Hview.
  - f_equal.
    exact (proj1 (@generic_methods_raise_only_invalid_params
                    _ Outage.outage_django Outage.down _ _ e) Hview).
Defined.

(** X18. Unlike view and delete, add refuses params that are falsy:
    without any value to store it raises [RpcInvalidParamsError], and
    the data store is not consulted. *)
Theorem model_add_refuses_empty {DB : Type} `{!Django DB}
    (d : DB) (request : JsonRpcRequest) (model : Model) :
  truthy (params request) = false →
  _model_add d request model = Raise RpcInvalidParamsError.
Proof.
  intros Hp. unfold _model_add. rewrite (lookups_of_falsy _ Hp).
  cbn [mbind result_bind]. by rewrite bool_decide_eq_true_2.
Qed.

Lemma model_add_refuses_empty_witness :
  _model_add Sample.database
    (Sample.call "db__django_project.add_item" (VDict ∅)) "django_project.item"
  = Raise RpcInvalidParamsError.
Proof.
  apply (model_add_refuses_empty Sample.database
           (Sample.call "db__django_project.add_item" (VDict ∅))
           "django_project.item").
  reflexivity.
Defined.

(** X19. View, add and delete refuse params that are truthy and not a
    dict (a non-empty list, a string, a number) with
    [RpcInvalidParamsError]. *)
Theorem generic_methods_refuse_non_dict {DB : Type} `{!Django DB}
    (d : DB) (request : JsonRpcRequest) (model : Model) :
  truthy (params request) = true →
  (∀ dict, params request ≠ VDict dict) →
  _model_view d request model = Raise RpcInvalidParamsError
  ∧ _model_add d request model = Raise RpcInvalidParamsError
  ∧ _model_delete d request model = Raise RpcInvalidParamsError.
Proof.
  intros Hp Hnd.
  assert (lookups_of (params request) = Raise RpcInvalidParamsError) as Hl.
  { unfold lookups_of, py_or. rewrite Hp.
    destruct (params request) as [| | | | |dict]; try done. by destruct (Hnd dict). }
  unfold _model_view, _model_add, _model_delete. by rewrite Hl.
Qed.

Lemma generic_methods_refuse_non_dict_witness :
  _model_delete Sample.database
    (Sample.call "db__django_project.delete_item" (VList [VInt 1]))
    "django_project.item"
  = Raise RpcInvalidParamsError.
Proof.
  apply (generic_methods_refuse_non_dict Sample.database
           (Sample.call "db__django_project.delete_item" (VList [VInt 1]))
           "django_project.item").
  - reflexivity.
  - discriminate.
Defined.

(** X20. What change does with params it cannot use: a dict without
    ["pk"] is refused with [RpcInvalidParamsError]; a list raises
    [TypeError] and anything else that is not a dict raises
    [AttributeError], neither of which is caught. *)
Theorem model_change_unusable_params {DB : Type} `{!Django DB}
    (d : DB) (request : JsonRpcRequest) (model : Model) :
  (∀ dict, params request = VDict dict → dict !! "pk" = None →
           _model_change d request model = Raise RpcInvalidParamsError)
  ∧ (∀ l, params request = VList l →
          _model_change d request model = Raise TypeError)
  ∧ ((∀ dict, params request ≠ VDict dict) →
     (∀ l, params request ≠ VList l) →
     _model_change d request model = Raise AttributeError).
Proof.
  unfold _model_change, params_pop. split; [|split].
  - by intros dict -> ->.
  - by intros l ->.
  - intros Hd Hl. destruct (params request) as [| | | |l|dict]; try done.
    + by destruct (Hl l).
    + by destruct (Hd dict).
Qed.

Lemma model_change_unusable_params_witness :
  _model_change Sample.database
    (Sample.call "db__django_project.change_item" VNone) "django_project.item"
  = Raise AttributeError.
Proof.
  apply (proj2 (proj2 (model_change_unusable_params Sample.database
           (Sample.call "db__django_project.change_item" VNone)
           "django_project.item"))); discriminate.
Defined.

Lemma set_attributes_union (obj : ModelObject) (fields : gmap string Value) :
  set_attributes obj fields
  = mkModelObject (obj_pk obj) (fields ∪ obj_attrs obj).
Proof.
  unfold set_attributes.
  apply (map_fold_weak_ind
           (λ o m, o = mkModelObject (obj_pk obj) (m ∪ obj_attrs obj))).
  - by rewrite (left_id_L ∅ (∪)); destruct obj.
  - intros k v m o _ ->. cbn [obj_pk obj_attrs]. by rewrite insert_union_l.
Qed.

(** X21. What change saves: the object found under the given primary
    key, with each field of the params set to its new value, every other
    attribute kept, and ["pk"] itself not written as an attribute.  When
    the store accepts it, change returns [True] and the store's new
    state. *)
Theorem model_change_saves {DB : Type} `{!Django DB}
    (d d' : DB) (request : JsonRpcRequest) (model : Model)
    (dict : gmap string Value) (pk : Value) (obj : ModelObject) :
  params request = VDict dict →
  dict !! "pk" = Some pk →
  objects_get d model pk = Ok obj →
  object_save d model
    (mkModelObject (obj_pk obj) (delete "pk" dict ∪ obj_attrs obj)) = Ok d' →
  _model_change d request model = Ok (true, d').
Proof.
  intros Hp Hpk Hget Hsave. unfold _model_change, params_pop.
  rewrite Hp, Hpk. cbn [mbind result_bind]. rewrite Hget.
  cbn [mbind result_bind]. by rewrite set_attributes_union, Hsave.
Qed.

Lemma model_change_saves_witness :
  ∃ d',
    _model_change Sample.database
      (Sample.call "db__django_project.change_item"
         (VDict {[ "pk" := VInt 2; "number" := VInt 5 ]}))
      "django_project.item"
    = Ok (true, d')
    ∧ objects_get d' "django_project.item" (VInt 2)
      = Ok (mkModelObject (VInt 2) {[ "client_id" := VInt 7; "number" := VInt 5 ]}).
Proof.
  eexists. split.
  - apply (model_change_saves Sample.database _
             (Sample.call "db__django_project.change_item"
                (VDict {[ "pk" := VInt 2; "number" := VInt 5 ]}))
             "django_project.item"
             {[ "pk" := VInt 2; "number" := VInt 5 ]} (VInt 2)
             (mkModelObject (VInt 2) {[ "client_id" := VInt 7; "number" := VInt 2 ]}));
      vm_compute; reflexivity.
  - vm_compute. reflexivity.
Defined.

(** ** Dispatch of the generic methods by name *)










(** ** The decorators *)

(** X24. Stacked [validate] decorators add up: decorating twice is
    decorating once with both sets of validators, the outer decorator
    winning where the two name the same parameter; validators the
    function already had are kept under the names neither mentions. *)
Theorem validate_stacks {V : Type} (outer inner : gmap string V)
    (function : Decorators.FunctionObject V) :
  Decorators.validate outer (Decorators.validate inner function)
  = Decorators.validate (outer ∪ inner) function
  ∧ ∀ k,
      default ∅ (Decorators.fn_validators
                   (Decorators.validate outer (Decorators.validate inner function)))
        !! k
      = match outer !! k with
        | Some v => Some v
        | None =>
            match inner !! k with
            | Some v => Some v
            | None => default ∅ (Decorators.fn_validators function) !! k
            end
        end.
Proof.
  assert (Decorators.validate outer (Decorators.validate inner function)
          = Decorators.validate (outer ∪ inner) function) as Heq.
  { unfold Decorators.validate.
    destruct (Decorators.fn_validators function) as [vs|]; simpl;
      by rewrite (assoc_L (∪)). }
  split; [exact Heq|]. intros k. rewrite Heq. unfold Decorators.validate.
  assert (∀ vs : gmap string V,
            (outer ∪ inner ∪ vs) !! k
            = match outer !! k with
              | Some v => Some v
              | None => match inner !! k with
                        | Some v => Some v
                        | None => vs !! k
                        end
              end) as Hlookup.
  { intros vs. rewrite !lookup_union.
    by destruct (outer !! k), (inner !! k), (vs !! k). }
  destruct function as [name raw [vs|]]; simpl; apply Hlookup.
Qed.

(** X25. [raw_response] sets the flag whether it is used bare or
    called first, leaves the validators alone, and commutes with
    [validate]; applying it twice changes nothing more. *)
Theorem raw_response_marks {V : Type} (kwargs : gmap string V)
    (function : Decorators.FunctionObject V) :
  (∃ decorator,
      Decorators.raw_response None = Decorators.Decorator decorator
      ∧ Decorators.raw_response (Some function)
        = Decorators.Decorated (decorator function)
      ∧ Decorators.fn_raw_response (decorator function) = Some true
      ∧ Decorators.fn_validators (decorator function)
        = Decorators.fn_validators function
      ∧ decorator (decorator function) = decorator function
      ∧ decorator (Decorators.validate kwargs function)
        = Decorators.validate kwargs (decorator function)).
Proof.
  exists Decorators.raw_response_decorator.
  split_and!; try reflexivity.
  unfold Decorators.validate, Decorators.raw_response_decorator.
  by destruct function as [name raw [vs|]].
Qed.

(** ** The test model *)

Lemma pretty_N_char_no_comma (x : N) : Ascii.eqb (pretty_N_char x) "," = false.
Proof.
  unfold pretty_N_char.
  repeat match goal with
         | |- context [match ?y with _ => _ end] => destruct y
         end; reflexivity.
Qed.

Lemma pretty_N_go_no_comma (x : N) (s : string) :
  char_in "," (pretty_N_go x s) = char_in "," s.
Proof.
  revert s. induction (N.lt_wf_0 x) as [x _ IH]; intros s.
  assert (x = 0 ∨ 0 < x)%N as [->|Hx] by lia; [by rewrite pretty_N_go_0|].
  rewrite pretty_N_go_step by done.
  rewrite IH by (apply N.div_lt; lia).
  cbn [char_in]. by rewrite pretty_N_char_no_comma.
Qed.

Lemma pretty_Z_no_comma (z : Z) : char_in "," (pretty z) = false.
Proof.
  assert (∀ n : N, char_in "," (pretty n) = false) as HN.
  { intros n. unfold pretty, pretty_N. case_decide; [done|].
    by rewrite pretty_N_go_no_comma. }
  destruct z as [|p|p]; [done|apply HN|].
  unfold pretty, pretty_Z. rewrite append_String, append_empty.
  cbn [char_in]. apply HN.
Qed.

(** Two texts that agree up to and after their first comma agree on
    both sides of it. *)
Lemma append_comma_inj (x x' y y' : string) :
  char_in "," x = false → char_in "," x' = false →
  x ++ String "," y = x' ++ String "," y' → x = x' ∧ y = y'.
Proof.
  revert x'. induction x as [|c x IH]; intros [|c' x'];
    rewrite ?append_empty, ?append_String; cbn [char_in].
  - by intros _ _ [= ->].
  - intros _ Hc [= <- _]. by rewrite Ascii.eqb_refl in Hc.
  - intros Hc _ [= -> _]. by rewrite Ascii.eqb_refl in Hc.
  - intros Hx Hx' [= -> Heq].
    apply orb_false_iff in Hx as [_ Hx]. apply orb_false_iff in Hx' as [_ Hx'].
    by destruct (IH x' Hx Hx' Heq) as [-> ->].
Qed.

(** X26. The text of an item identifies it: two items with the same
    [__str__] have the same [client_id] and the same [number]. *)
Theorem item_str_inj (a b : Models.Item) :
  Models.__str__ a = Models.__str__ b → a = b.
Proof.
  unfold Models.__str__.
  rewrite !append_String, !append_empty. intros Heq.
  injection Heq as Heq.
  apply append_comma_inj in Heq as [Hc Hn]; [|apply pretty_Z_no_comma..].
  injection Hn as Hn.
  apply (inj pretty) in Hc, Hn.
  destruct a, b. simpl in *. by subst.
Qed.

Lemma item_str_inj_witness :
  Models.__str__ (Models.mkItem 7 (-2)) = "client_id: 7, number: -2"
  ∧ Models.mkItem 7 (-2) = Models.mkItem 7 (-2).
Proof.
  split; [vm_compute; reflexivity|].
  apply (item_str_inj (Models.mkItem 7 (-2)) (Models.mkItem 7 (-2))).
  reflexivity.
Defined.
